(** * BankSight transaction dashboard: the query and mutation core of [bank.py]

    The program is a Streamlit script over one shared [sqlite3] connection.
    This development embeds

    - the helper [run_query] (lines 22-31), the catalog [queries]
      (lines 80-322) and the button handlers of the pages "SQLite Queries",
      "View Tables" and "CRUD Operations";
    - the part of the stack below them that decides what the handlers do:
      Python's [try]/[except], [sqlite3.Connection.execute]/[commit],
      [pandas.read_sql_query], and an executable model of SQLite for the
      statements the script sends that stay inside a small grammar.

    The SQLite model covers single-table [SELECT] (with [WHERE], [GROUP BY],
    [HAVING], [ORDER BY], [LIMIT], [COUNT], [SUM], [DATE('now', ...)]),
    [INSERT ... VALUES], [UPDATE ... SET] and [DELETE].  Values are NULL,
    64-bit integers and text; REAL values, joins, [AVG], [strftime] and
    column type affinity are outside the grammar.  What SQLite does for a
    statement outside the grammar is a parameter of the development (the
    section variable [beyond]), so every theorem holds whatever it is. *)

From Stdlib Require Import ZArith String Ascii List DecimalString.
From Stdlib Require Import Sorted.
From Stdlib Require OrderedTypeEx.
From stdpp Require Import gmap strings list fin_maps.

Open Scope string_scope.
Open Scope Z_scope.

(** ** Text helpers *)

Module Text.

Definition code (c : ascii) : Z := Z.of_N (N_of_ascii c).

Definition is_space (c : ascii) : bool :=
  (code c =? 32) || (code c =? 9) || (code c =? 10) || (code c =? 12) || (code c =? 13).

Definition is_digit (c : ascii) : bool := (48 <=? code c) && (code c <=? 57).

Definition is_upper (c : ascii) : bool := (65 <=? code c) && (code c <=? 90).

Definition is_lower (c : ascii) : bool := (97 <=? code c) && (code c <=? 122).

(** A character that may start an identifier. *)
Definition is_word_start (c : ascii) : bool :=
  is_upper c || is_lower c || (code c =? 95).

Definition is_word_char (c : ascii) : bool := is_word_start c || is_digit c.

Definition lower_ascii (c : ascii) : ascii :=
  if is_upper c then ascii_of_N (Z.to_N (code c + 32)) else c.

Definition upper_ascii (c : ascii) : ascii :=
  if is_lower c then ascii_of_N (Z.to_N (code c - 32)) else c.

Fixpoint map_chars (f : ascii -> ascii) (s : string) : string :=
  match s with
  | EmptyString => EmptyString
  | String c r => String (f c) (map_chars f r)
  end.

(** SQLite compares identifiers and keywords without regard to ASCII case. *)
Definition lower (s : string) : string := map_chars lower_ascii s.
Definition upper (s : string) : string := map_chars upper_ascii s.

Definition same_name (a b : string) : bool := String.eqb (lower a) (lower b).

(** Python's [str(n)] for an integer. *)
Definition decimal (z : Z) : string := NilZero.string_of_int (Z.to_int z).

Fixpoint zeros (n : nat) (s : string) : string :=
  match n with
  | O => s
  | S k => zeros k ("0" +:+ s)
  end.

(** [n] written with at least [width] digits, zero-padded ([n >= 0]). *)
Definition padded (width : nat) (n : Z) : string :=
  let s := decimal n in zeros (width - String.length s) s.

End Text.

(** ** The calendar behind [DATE('now')]

    The clock is read as a number of days since 1970-01-01 (UTC), and
    rendered as SQLite renders a date: [YYYY-MM-DD]. *)

Module Calendar.

Record civil := { year : Z; month : Z; day : Z }.

(** Days since 1970-01-01 to a proleptic Gregorian date. *)
Definition civil_of_days (d : Z) : civil :=
  let z := d + 719468 in
  let era := z / 146097 in
  let doe := z - era * 146097 in
  let yoe := (doe - doe / 1460 + doe / 36524 - doe / 146096) / 365 in
  let doy := doe - (365 * yoe + yoe / 4 - yoe / 100) in
  let mp := (5 * doy + 2) / 153 in
  let dd := doy - (153 * mp + 2) / 5 + 1 in
  let mm := if mp <? 10 then mp + 3 else mp - 9 in
  let yy := yoe + era * 400 + (if mm <=? 2 then 1 else 0) in
  {| year := yy; month := mm; day := dd |}.

Definition iso (c : civil) : string :=
  Text.padded 4 (year c) +:+ "-" +:+ Text.padded 2 (month c) +:+ "-" +:+ Text.padded 2 (day c).

(** 0000-01-01 and 9999-12-31, the range SQLite's date functions cover. *)
Definition first_day : Z := -719528.
Definition last_day : Z := 2932896.

Definition in_range (d : Z) : bool := (first_day <=? d) && (d <=? last_day).

End Calendar.

(** ** Python values the script handles *)

(** A value of a row: SQLite's storage classes NULL, INTEGER and TEXT, which
    [sqlite3] maps to [None], [int] and [str]. *)
Inductive value :=
  | VNull
  | VInt (z : Z)
  | VText (s : string).

#[global] Instance value_eq_dec : EqDecision value.
Proof. solve_decision. Defined.

(** [pandas.DataFrame]: ordered column names and ordered rows. *)
Record DataFrame := { columns : list string; rows : list (list value) }.

(** [pd.DataFrame()] *)
Definition empty_DataFrame : DataFrame := {| columns := []; rows := [] |}.

(** The exceptions that occur, all subclasses of [Exception]
    ([KeyboardInterrupt] and [SystemExit] are not, and are no failure of the
    store). *)
Inductive exn :=
  | OperationalError (msg : string)   (* sqlite3.OperationalError *)
  | IntegrityError (msg : string)     (* sqlite3.IntegrityError *)
  | ProgrammingError (msg : string)   (* sqlite3.ProgrammingError *)
  | DatabaseError (msg : string)      (* pandas.errors.DatabaseError *)
  | TypeError (msg : string)
  | KeyError (key : string).

(** [str(e)] *)
Definition str (e : exn) : string :=
  match e with
  | OperationalError m | IntegrityError m | ProgrammingError m
  | DatabaseError m | TypeError m => m
  | KeyError k => "'" +:+ k +:+ "'"
  end.

(** How a Python call ends. *)
Inductive outcome (A : Type) :=
  | Returned (a : A)
  | Raised (e : exn).
Arguments Returned {A} a.
Arguments Raised {A} e.

(** ** SQLite: the statements of the grammar *)

Module Sqlite.

(** *** Tokens *)

Inductive sym :=
  | LParen | RParen | Comma | Semi | Star
  | SEq | SNe | SLt | SLe | SGt | SGe.

Inductive token :=
  | TWord (w : string)     (* an identifier or keyword, as written *)
  | TNum (n : Z)
  | TStr (s : string)      (* a literal between single quotes *)
  | TParam (i : nat)       (* the i-th question mark of the statement, from 0 *)
  | TSym (s : sym).

Inductive lex_state :=
  | Idle
  | InWord (acc : string)
  | InNum (acc : Z)
  | InStr (acc : string)
  | InOp (c : ascii).      (* after one of < > ! *)

(** [toks] is kept in reverse; [nparams] counts the question marks read. *)
Record lexer := { toks : list token; nparams : nat; state : lex_state }.

Definition push (t : token) (l : lexer) : lexer :=
  {| toks := t :: toks l; nparams := nparams l; state := Idle |}.

Definition enter (s : lex_state) (l : lexer) : lexer :=
  {| toks := toks l; nparams := nparams l; state := s |}.

Definition snoc (s : string) (c : ascii) : string := s +:+ String c EmptyString.

(** A character read between tokens. *)
Definition lex_idle (c : ascii) (l : lexer) : option lexer :=
  let n := Text.code c in
  if Text.is_space c then Some (enter Idle l)
  else if Text.is_word_start c then Some (enter (InWord (String c EmptyString)) l)
  else if Text.is_digit c then Some (enter (InNum (n - 48)) l)
  else if n =? 39 then Some (enter (InStr EmptyString) l)
  else if n =? 63 then
    Some {| toks := TParam (nparams l) :: toks l; nparams := S (nparams l); state := Idle |}
  else if n =? 40 then Some (push (TSym LParen) l)
  else if n =? 41 then Some (push (TSym RParen) l)
  else if n =? 44 then Some (push (TSym Comma) l)
  else if n =? 59 then Some (push (TSym Semi) l)
  else if n =? 42 then Some (push (TSym Star) l)
  else if n =? 61 then Some (push (TSym SEq) l)
  else if (n =? 60) || (n =? 62) || (n =? 33) then Some (enter (InOp c) l)
  else None.

(** The end of the token being read. *)
Definition lex_flush (l : lexer) : option lexer :=
  match state l with
  | Idle => Some l
  | InWord w => Some (push (TWord w) l)
  | InNum n => Some (push (TNum n) l)
  | InStr _ => None
  | InOp c =>
      if Text.code c =? 60 then Some (push (TSym SLt) l)
      else if Text.code c =? 62 then Some (push (TSym SGt) l)
      else None
  end.

Definition lex_step (c : ascii) (l : lexer) : option lexer :=
  let n := Text.code c in
  match state l with
  | Idle => lex_idle c l
  | InStr acc =>
      if n =? 39 then Some (push (TStr acc) l) else Some (enter (InStr (snoc acc c)) l)
  | InWord acc =>
      if Text.is_word_char c then Some (enter (InWord (snoc acc c)) l)
      else l' ← lex_flush l; lex_idle c l'
  | InNum k =>
      if Text.is_digit c then Some (enter (InNum (10 * k + (n - 48))) l)
      else if Text.is_word_start c then None
      else l' ← lex_flush l; lex_idle c l'
  | InOp o =>
      let m := Text.code o in
      if (m =? 60) && (n =? 61) then Some (push (TSym SLe) l)
      else if (m =? 62) && (n =? 61) then Some (push (TSym SGe) l)
      else if (m =? 33) && (n =? 61) then Some (push (TSym SNe) l)
      else if (m =? 60) && (n =? 62) then Some (push (TSym SNe) l)
      else l' ← lex_flush l; lex_idle c l'
  end.

Fixpoint lex_all (s : string) (l : lexer) : option lexer :=
  match s with
  | EmptyString => lex_flush l
  | String c r => l' ← lex_step c l; lex_all r l'
  end.

(** The tokens of a statement and the number of its placeholders; [None]
    when a character or literal is outside the grammar. *)
Definition tokenize (s : string) : option (list token * nat) :=
  l ← lex_all s {| toks := []; nparams := O; state := Idle |};
  Some (rev (toks l), nparams l).

(** *** Syntax *)

Inductive operand :=
  | OCol (c : string)
  | OLit (v : value)
  | OParam (i : nat)
  | ODateNow (shift : Z)        (* DATE('now') and DATE('now', '<shift> days') *)
  | OCountStar                  (* COUNT( * ) *)
  | OCount (c : string)
  | OSum (c : string).

Inductive cmpop := OpEq | OpNe | OpLt | OpLe | OpGt | OpGe.

Inductive cond :=
  | CCmp (op : cmpop) (a b : operand)
  | CIn (a : operand) (vs : list value)
  | CAnd (c1 c2 : cond).

Record item := { it_expr : operand; it_alias : option string }.

Inductive select_list :=
  | AllColumns
  | Items (l : list item).

Record select := {
  sel_items : select_list;
  sel_from : string;
  sel_where : option cond;
  sel_group : list string;
  sel_having : option cond;
  sel_order : option (string * bool);   (* column, descending? *)
  sel_limit : option nat
}.

Inductive stmt :=
  | Select (q : select)
  | Insert (tbl : string) (vals : list operand)
  | Update (tbl : string) (col : string) (e : operand) (w : option cond)
  | Delete (tbl : string) (w : option cond).

(** *** Parser *)

Definition reserved_words : list string :=
  ["SELECT"; "DISTINCT"; "FROM"; "WHERE"; "GROUP"; "BY"; "HAVING"; "ORDER";
   "LIMIT"; "OFFSET"; "AS"; "AND"; "OR"; "NOT"; "IN"; "IS"; "NULL"; "LIKE";
   "BETWEEN"; "CASE"; "WHEN"; "THEN"; "ELSE"; "END"; "JOIN"; "LEFT"; "INNER";
   "OUTER"; "CROSS"; "NATURAL"; "ON"; "USING"; "UNION"; "EXCEPT"; "INTERSECT";
   "INSERT"; "INTO"; "VALUES"; "UPDATE"; "SET"; "DELETE"; "ASC"; "DESC";
   "EXISTS"; "COLLATE"; "ALL"; "DEFAULT"; "INDEXED"; "CREATE"; "DROP";
   "TABLE"; "INDEX"].

Definition is_word (k : string) (w : string) : bool := String.eqb (Text.upper w) k.

Definition reserved (w : string) : bool := existsb (String.eqb (Text.upper w)) reserved_words.

Abbreviation parser A := (list token -> option (A * list token)).

(** The keyword [k], in any case. *)
Definition keyword (k : string) : parser unit := fun ts =>
  match ts with
  | TWord w :: r => if is_word k w then Some (tt, r) else None
  | _ => None
  end.

Definition symbol (s : sym) : parser unit := fun ts =>
  match ts with
  | TSym s' :: r =>
      match s, s' with
      | LParen, LParen | RParen, RParen | Comma, Comma | Semi, Semi | Star, Star
      | SEq, SEq | SNe, SNe | SLt, SLt | SLe, SLe | SGt, SGt | SGe, SGe => Some (tt, r)
      | _, _ => None
      end
  | _ => None
  end.

Definition ident : parser string := fun ts =>
  match ts with
  | TWord w :: r => if reserved w then None else Some (w, r)
  | _ => None
  end.

(** [k] when it is there, and nothing otherwise. *)
Definition optional {A} (start : parser unit) (p : parser A) : parser (option A) := fun ts =>
  match start ts with
  | Some (_, r) => '(a, r') ← p r; Some (Some a, r')
  | None => Some (None, ts)
  end.

Fixpoint digits (s : string) (acc : Z) : option Z :=
  match s with
  | EmptyString => Some acc
  | String c r => if Text.is_digit c then digits r (10 * acc + (Text.code c - 48)) else None
  end.

(** The modifier of [DATE('now', m)]: a signed whole number of days. *)
Definition days_modifier (m : string) : option Z :=
  let signed (s : string) : option Z :=
    match index 0 " " s with
    | Some (S k) =>
        let unit := Text.lower (substring (S (S k)) (String.length s) s) in
        if String.eqb unit "days" || String.eqb unit "day"
        then digits (substring 0 (S k) s) 0 else None
    | _ => None
    end in
  match m with
  | String c r =>
      if Text.code c =? 45 then Z.opp <$> signed r
      else if Text.code c =? 43 then signed r
      else signed m
  | EmptyString => None
  end.

Definition column_arg : parser string := fun ts =>
  '(c, r) ← ident ts; '(_, r') ← symbol RParen r; Some (c, r').

Definition call (f : string) : parser operand := fun ts =>
  if is_word "COUNT" f then
    match symbol Star ts with
    | Some (_, r) => '(_, r') ← symbol RParen r; Some (OCountStar, r')
    | None => '(c, r) ← column_arg ts; Some (OCount c, r)
    end
  else if is_word "SUM" f then '(c, r) ← column_arg ts; Some (OSum c, r)
  else if is_word "DATE" f then
    match ts with
    | TStr t :: TSym RParen :: r =>
        if is_word "NOW" t then Some (ODateNow 0, r) else None
    | TStr t :: TSym Comma :: TStr m :: TSym RParen :: r =>
        if is_word "NOW" t then k ← days_modifier m; Some (ODateNow k, r) else None
    | _ => None
    end
  else None.

Definition parse_operand : parser operand := fun ts =>
  match ts with
  | TWord f :: TSym LParen :: r => call f r
  | TWord w :: r => if reserved w then None else Some (OCol w, r)
  | TNum n :: r => Some (OLit (VInt n), r)
  | TStr s :: r => Some (OLit (VText s), r)
  | TParam i :: r => Some (OParam i, r)
  | _ => None
  end.

Definition literal (t : token) : option value :=
  match t with
  | TNum n => Some (VInt n)
  | TStr s => Some (VText s)
  | _ => None
  end.

(** [v1, ..., vn )] *)
Fixpoint literals (ts : list token) : option (list value * list token) :=
  match ts with
  | t :: TSym Comma :: r => v ← literal t; '(vs, r') ← literals r; Some (v :: vs, r')
  | t :: TSym RParen :: r => v ← literal t; Some ([v], r)
  | _ => None
  end.

Definition comparison_op : parser cmpop := fun ts =>
  match ts with
  | TSym SEq :: r => Some (OpEq, r)
  | TSym SNe :: r => Some (OpNe, r)
  | TSym SLt :: r => Some (OpLt, r)
  | TSym SLe :: r => Some (OpLe, r)
  | TSym SGt :: r => Some (OpGt, r)
  | TSym SGe :: r => Some (OpGe, r)
  | _ => None
  end.

Definition parse_cmp : parser cond := fun ts =>
  '(a, r) ← parse_operand ts;
  match keyword "IN" r with
  | Some (_, r1) => '(_, r2) ← symbol LParen r1; '(vs, r3) ← literals r2; Some (CIn a vs, r3)
  | None => '(op, r1) ← comparison_op r; '(b, r2) ← parse_operand r1; Some (CCmp op a b, r2)
  end.

(** [cmp AND cmp AND ...]; [fuel] bounds the number of conjuncts. *)
Fixpoint parse_cond (fuel : nat) : parser cond := fun ts =>
  match fuel with
  | O => None
  | S f =>
      '(c, r) ← parse_cmp ts;
      match keyword "AND" r with
      | Some (_, r1) => '(c', r2) ← parse_cond f r1; Some (CAnd c c', r2)
      | None => Some (c, r)
      end
  end.

Definition parse_item : parser item := fun ts =>
  '(e, r) ← parse_operand ts;
  '(a, r') ← optional (keyword "AS") ident r;
  Some ({| it_expr := e; it_alias := a |}, r').

(** A comma-separated list of [p], at least one. *)
Fixpoint sep_by {A} (p : parser A) (fuel : nat) : parser (list A) := fun ts =>
  match fuel with
  | O => None
  | S f =>
      '(a, r) ← p ts;
      match symbol Comma r with
      | Some (_, r1) => '(l, r2) ← sep_by p f r1; Some (a :: l, r2)
      | None => Some ([a], r)
      end
  end.

Definition parse_order : parser (string * bool) := fun ts =>
  '(_, r) ← keyword "BY" ts;
  '(c, r1) ← ident r;
  match keyword "DESC" r1, keyword "ASC" r1 with
  | Some (_, r2), _ => Some ((c, true), r2)
  | None, Some (_, r2) => Some ((c, false), r2)
  | None, None => Some ((c, false), r1)
  end.

Definition parse_limit : parser nat := fun ts =>
  match ts with
  | TNum n :: r => Some (Z.to_nat n, r)
  | _ => None
  end.

(** The end of a statement: nothing, or one semicolon. *)
Definition at_end (ts : list token) : bool :=
  match ts with
  | [] | [TSym Semi] => true
  | _ => false
  end.

Definition parse_select (ts : list token) : option stmt :=
  let n := length ts in
  '(its, r1) ← match symbol Star ts with
                | Some (_, r) => Some (AllColumns, r)
                | None => '(l, r) ← sep_by parse_item n ts; Some (Items l, r)
                end;
  '(_, r2) ← keyword "FROM" r1;
  '(t, r3) ← ident r2;
  '(w, r4) ← optional (keyword "WHERE") (parse_cond n) r3;
  '(g, r5) ← optional (keyword "GROUP") (fun r => '(_, r') ← keyword "BY" r; sep_by ident n r') r4;
  '(h, r6) ← optional (keyword "HAVING") (parse_cond n) r5;
  '(o, r7) ← optional (keyword "ORDER") parse_order r6;
  '(l, r8) ← optional (keyword "LIMIT") parse_limit r7;
  if at_end r8 then
    Some (Select {| sel_items := its; sel_from := t; sel_where := w; sel_group := default [] g;
                    sel_having := h; sel_order := o; sel_limit := l |})
  else None.

Definition parse_insert (ts : list token) : option stmt :=
  '(_, r0) ← keyword "INTO" ts;
  '(t, r1) ← ident r0;
  '(_, r2) ← keyword "VALUES" r1;
  '(_, r3) ← symbol LParen r2;
  '(vs, r4) ← sep_by parse_operand (length ts) r3;
  '(_, r5) ← symbol RParen r4;
  if at_end r5 then Some (Insert t vs) else None.

Definition parse_update (ts : list token) : option stmt :=
  '(t, r0) ← ident ts;
  '(_, r1) ← keyword "SET" r0;
  '(c, r2) ← ident r1;
  '(_, r3) ← symbol SEq r2;
  '(e, r4) ← parse_operand r3;
  '(w, r5) ← optional (keyword "WHERE") (parse_cond (length ts)) r4;
  if at_end r5 then Some (Update t c e w) else None.

Definition parse_delete (ts : list token) : option stmt :=
  '(_, r0) ← keyword "FROM" ts;
  '(t, r1) ← ident r0;
  '(w, r2) ← optional (keyword "WHERE") (parse_cond (length ts)) r1;
  if at_end r2 then Some (Delete t w) else None.

Definition parse (ts : list token) : option stmt :=
  match ts with
  | TWord w :: r =>
      if is_word "SELECT" w then parse_select r
      else if is_word "INSERT" w then parse_insert r
      else if is_word "UPDATE" w then parse_update r
      else if is_word "DELETE" w then parse_delete r
      else None
  | _ => None
  end.

(** A statement of the grammar with the number of its placeholders, or
    [None] for a text outside the grammar. *)
Definition prepare (sql : string) : option (stmt * nat) :=
  '(ts, n) ← tokenize sql; s ← parse ts; Some (s, n).

(** *** The database *)

(** A table: its declared name and columns, the columns under a PRIMARY KEY
    or UNIQUE constraint, and its rows in rowid order.  The schema is created
    outside [bank.py]; the script never issues DDL. *)
Record table := {
  tname : string;
  tcolumns : list string;
  tunique : list string;
  trows : list (list value)
}.

(** Tables by lower-cased name. *)
Abbreviation database := (gmap string table).

Definition find_table (db : database) (name : string) : option table :=
  db !! Text.lower name.

(** What [sqlite3.Cursor] holds after [execute]. *)
Record cursor := {
  description : option (list string);   (* column names; [None] when no rows are produced *)
  fetchall : list (list value);
  rowcount : Z
}.

(** The result of a statement inside the model: done, an error SQLite
    raises, or a statement (or data) the model does not cover. *)
Inductive res (A : Type) :=
  | Ok (a : A)
  | Err (e : exn)
  | Beyond.
Arguments Ok {A} a.
Arguments Err {A} e.
Arguments Beyond {A}.

#[global] Instance res_ret : MRet res := @Ok.
#[global] Instance res_bind : MBind res := fun A B f m =>
  match m with
  | Ok a => f a
  | Err e => Err e
  | Beyond => Beyond
  end.

(** Two parts of one statement: outside the model as soon as one of them
    is, otherwise the first error. *)
Definition both {A B} (x : res A) (y : res B) : res (A * B) :=
  match x, y with
  | Beyond, _ | _, Beyond => Beyond
  | Err e, _ => Err e
  | _, Err e => Err e
  | Ok a, Ok b => Ok (a, b)
  end.

Fixpoint collect {A} (rs : list (res A)) : res (list A) :=
  match rs with
  | [] => Ok []
  | r :: rest => '(a, l) ← both r (collect rest); Ok (a :: l)
  end.

(** *** Values: order and comparison *)

(** The order of ORDER BY and GROUP BY: NULL, then integers, then text
    (compared byte by byte). *)
Definition compare_values (a b : value) : comparison :=
  match a, b with
  | VNull, VNull => Eq
  | VNull, _ => Lt
  | _, VNull => Gt
  | VInt x, VInt y => x ?= y
  | VInt _, VText _ => Lt
  | VText _, VInt _ => Gt
  | VText s, VText t => String.compare s t
  end.

Definition satisfies (op : cmpop) (c : comparison) : bool :=
  match op, c with
  | OpEq, Eq | OpNe, Lt | OpNe, Gt | OpLt, Lt | OpLe, Lt | OpLe, Eq
  | OpGt, Gt | OpGe, Gt | OpGe, Eq => true
  | _, _ => false
  end.

(** A comparison in a condition: unknown ([None]) when an operand is NULL. *)
Definition test (op : cmpop) (a b : value) : option bool :=
  match a, b with
  | VNull, _ | _, VNull => None
  | _, _ => Some (satisfies op (compare_values a b))
  end.

Definition and3 (a b : option bool) : option bool :=
  match a, b with
  | Some false, _ | _, Some false => Some false
  | Some true, Some true => Some true
  | _, _ => None
  end.

(** [x IN (v1, ..., vn)] *)
Definition member (x : value) (vs : list value) : option bool :=
  match x with
  | VNull => None
  | _ =>
      if existsb (fun v => bool_decide (test OpEq x v = Some true)) vs then Some true
      else if existsb (fun v => bool_decide (v = VNull)) vs then None
      else Some false
  end.

(** *** Expressions, resolved against a table *)

Fixpoint col_index (cols : list string) (c : string) : option nat :=
  match cols with
  | [] => None
  | x :: r => if Text.same_name x c then Some O else S <$> col_index r c
  end.

Definition no_such_column (c : string) : exn :=
  OperationalError ("no such column: " +:+ c).

Definition no_such_table (t : string) : exn :=
  OperationalError ("no such table: " +:+ t).

(** An expression over one row. *)
Inductive scalar :=
  | SIdx (i : nat)          (* the i-th column of the row *)
  | SVal (v : value)
  | SPar (i : nat)          (* the i-th bound parameter *)
  | SDate (shift : Z).      (* the current date, [shift] days away *)

Inductive rcond :=
  | RCmp (op : cmpop) (a b : scalar)
  | RIn (a : scalar) (vs : list value)
  | RAnd (c1 c2 : rcond).

(** What the execution of a statement reads besides the database. *)
Record env := { e_today : Z; e_params : list value }.

(** [DATE('now', ...)]: the text of the day, NULL outside years 0000-9999. *)
Definition sql_date (d : Z) : value :=
  if Calendar.in_range d then VText (Calendar.iso (Calendar.civil_of_days d)) else VNull.

Definition eval_scalar (en : env) (row : list value) (s : scalar) : value :=
  match s with
  | SIdx i => nth i row VNull
  | SVal v => v
  | SPar i => nth i (e_params en) VNull
  | SDate k => sql_date (e_today en + k)
  end.

Fixpoint holds (en : env) (row : list value) (c : rcond) : option bool :=
  match c with
  | RCmp op a b => test op (eval_scalar en row a) (eval_scalar en row b)
  | RIn a vs => member (eval_scalar en row a) vs
  | RAnd c1 c2 => and3 (holds en row c1) (holds en row c2)
  end.

(** WHERE keeps the rows for which the condition is true (not unknown). *)
Definition keeps (en : env) (w : option rcond) (row : list value) : bool :=
  match w with
  | None => true
  | Some c => bool_decide (holds en row c = Some true)
  end.

(** An operand of WHERE, VALUES or SET.  A name that is no column of the
    table but an alias of the select list is left to SQLite. *)
Definition resolve_scalar (cols aliases : list string) (o : operand) : res scalar :=
  match o with
  | OCol c =>
      match col_index cols c with
      | Some i => Ok (SIdx i)
      | None => if existsb (Text.same_name c) aliases then Beyond else Err (no_such_column c)
      end
  | OLit v => Ok (SVal v)
  | OParam i => Ok (SPar i)
  | ODateNow k => Ok (SDate k)
  | OCountStar | OCount _ | OSum _ => Beyond
  end.

Fixpoint resolve_cond (cols aliases : list string) (c : cond) : res rcond :=
  match c with
  | CCmp op a b =>
      '(a', b') ← both (resolve_scalar cols aliases a) (resolve_scalar cols aliases b);
      Ok (RCmp op a' b')
  | CIn a vs => a' ← resolve_scalar cols aliases a; Ok (RIn a' vs)
  | CAnd c1 c2 =>
      '(c1', c2') ← both (resolve_cond cols aliases c1) (resolve_cond cols aliases c2);
      Ok (RAnd c1' c2')
  end.

Definition resolve_where (cols aliases : list string) (w : option cond) : res (option rcond) :=
  match w with
  | None => Ok None
  | Some c => c' ← resolve_cond cols aliases c; Ok (Some c')
  end.

(** *** Aggregates *)

(** An expression over a group of rows. *)
Inductive agg :=
  | AFirst (i : nat)        (* a grouping column: the same in every row of the group *)
  | AConst (s : scalar)
  | ACountStar
  | ACount (i : nat)
  | ASum (i : nat).

Inductive acond :=
  | ACmp (op : cmpop) (a b : agg)
  | AIn (a : agg) (vs : list value)
  | AAnd (c1 c2 : acond).

Definition int64_min : Z := -9223372036854775808.
Definition int64_max : Z := 9223372036854775807.

Definition is_text (v : value) : bool :=
  match v with VText _ => true | _ => false end.

(** The integer sum of the non-NULL values, in row order; NULL when there is
    none; "integer overflow" when a partial sum leaves the 64-bit range. *)
Fixpoint sum_ints (vs : list value) (acc : option Z) : res value :=
  match vs with
  | [] => Ok (from_option VInt VNull acc)
  | VInt z :: r =>
      let s := default 0 acc + z in
      if (int64_min <=? s) && (s <=? int64_max) then sum_ints r (Some s)
      else Err (OperationalError "integer overflow")
  | _ :: r => sum_ints r acc
  end.

(** [SUM] over text is computed in floating point by SQLite. *)
Definition sum_values (vs : list value) : res value :=
  if existsb is_text vs then Beyond else sum_ints vs None.

Definition column (i : nat) (rows : list (list value)) : list value :=
  map (fun row => nth i row VNull) rows.

Definition count_values (vs : list value) : Z :=
  Z.of_nat (length (filter (fun v => v <> VNull) vs)).

Definition eval_agg (en : env) (group : list (list value)) (a : agg) : res value :=
  match a with
  | AFirst i => Ok (nth i (hd [] group) VNull)
  | AConst s => Ok (eval_scalar en [] s)
  | ACountStar => Ok (VInt (Z.of_nat (length group)))
  | ACount i => Ok (VInt (count_values (column i group)))
  | ASum i => sum_values (column i group)
  end.

Fixpoint holds_group (en : env) (group : list (list value)) (c : acond) : res (option bool) :=
  match c with
  | ACmp op a b => '(x, y) ← both (eval_agg en group a) (eval_agg en group b); Ok (test op x y)
  | AIn a vs => x ← eval_agg en group a; Ok (member x vs)
  | AAnd c1 c2 =>
      '(p, q) ← both (holds_group en group c1) (holds_group en group c2); Ok (and3 p q)
  end.

(** An expression of the select list of an aggregate query.  A column that
    is not grouped by has the value of a row SQLite chooses. *)
Definition resolve_agg (cols group : list string) (o : operand) : res agg :=
  let at_column (c : string) (k : nat -> res agg) : res agg :=
    match col_index cols c with
    | Some i => k i
    | None => Err (no_such_column c)
    end in
  match o with
  | OCol c => at_column c (fun i => if existsb (Text.same_name c) group then Ok (AFirst i) else Beyond)
  | OLit v => Ok (AConst (SVal v))
  | OParam i => Ok (AConst (SPar i))
  | ODateNow k => Ok (AConst (SDate k))
  | OCountStar => Ok ACountStar
  | OCount c => at_column c (fun i => Ok (ACount i))
  | OSum c => at_column c (fun i => Ok (ASum i))
  end.

(** The expression behind an alias of the select list. *)
Fixpoint aliased (its : list item) (c : string) : option operand :=
  match its with
  | [] => None
  | it :: r =>
      match it_alias it with
      | Some n => if Text.same_name n c then Some (it_expr it) else aliased r c
      | None => aliased r c
      end
  end.

(** An operand of HAVING: a column of the table first, then an alias. *)
Definition resolve_having_operand (cols group : list string) (its : list item)
    (o : operand) : res agg :=
  match o with
  | OCol c =>
      match col_index cols c, aliased its c with
      | None, Some e => resolve_agg cols group e
      | _, _ => resolve_agg cols group o
      end
  | _ => resolve_agg cols group o
  end.

Fixpoint resolve_having (cols group : list string) (its : list item) (c : cond) : res acond :=
  match c with
  | CCmp op a b =>
      '(a', b') ← both (resolve_having_operand cols group its a)
                       (resolve_having_operand cols group its b);
      Ok (ACmp op a' b')
  | CIn a vs => a' ← resolve_having_operand cols group its a; Ok (AIn a' vs)
  | CAnd c1 c2 =>
      '(c1', c2') ← both (resolve_having cols group its c1) (resolve_having cols group its c2);
      Ok (AAnd c1' c2')
  end.

(** *** Sorting and grouping *)

Fixpoint insert_sorted {A} (le : A -> A -> bool) (x : A) (l : list A) : list A :=
  match l with
  | [] => [x]
  | y :: r => if le x y then x :: l else y :: insert_sorted le x r
  end.

(** A stable sort: rows that compare equal keep their order. *)
Definition sort_by {A} (le : A -> A -> bool) (l : list A) : list A :=
  foldr (insert_sorted le) [] l.

Fixpoint compare_keys (a b : list value) : comparison :=
  match a, b with
  | x :: a', y :: b' =>
      match compare_values x y with
      | Eq => compare_keys a' b'
      | c => c
      end
  | [], [] => Eq
  | [], _ :: _ => Lt
  | _ :: _, [] => Gt
  end.

Definition not_after (c : comparison) : bool :=
  match c with Gt => false | _ => true end.

Definition key (idx : list nat) (row : list value) : list value :=
  map (fun i => nth i row VNull) idx.

(** Rows sorted by key, cut where the key changes. *)
Fixpoint runs (idx : list nat) (rows : list (list value)) : list (list (list value)) :=
  match rows with
  | [] => []
  | r :: rest =>
      match runs idx rest with
      | (r' :: g) :: gs =>
          match compare_keys (key idx r) (key idx r') with
          | Eq => (r :: r' :: g) :: gs
          | _ => [r] :: (r' :: g) :: gs
          end
      | _ => [[r]]
      end
  end.

(** GROUP BY: one group per key, in ascending order of the key. *)
Definition groups (idx : list nat) (rows : list (list value)) : list (list (list value)) :=
  runs idx (sort_by (fun a b => not_after (compare_keys (key idx a) (key idx b))) rows).

(** ORDER BY the i-th output column. *)
Definition order_rows (o : option (nat * bool)) (rows : list (list value)) : list (list value) :=
  match o with
  | None => rows
  | Some (i, false) =>
      sort_by (fun a b => not_after (compare_values (nth i a VNull) (nth i b VNull))) rows
  | Some (i, true) =>
      sort_by (fun a b => not_after (compare_values (nth i b VNull) (nth i a VNull))) rows
  end.

Definition limit_rows (l : option nat) (rows : list (list value)) : list (list value) :=
  match l with
  | None => rows
  | Some n => take n rows
  end.

(** *** Execution *)

Definition is_aggregate (o : operand) : bool :=
  match o with
  | OCountStar | OCount _ | OSum _ => true
  | _ => false
  end.

Definition items_of (l : select_list) : list item :=
  match l with
  | AllColumns => []
  | Items its => its
  end.

(** A query that produces one row per group. *)
Definition aggregate_query (q : select) : bool :=
  existsb (fun it => is_aggregate (it_expr it)) (items_of (sel_items q))
  || negb (bool_decide (sel_group q = []))
  || bool_decide (is_Some (sel_having q)).

(** The name of an output column: the alias, or the declared name of the
    column; SQLite names any other expression by its text. *)
Definition output_name (cols : list string) (it : item) : res string :=
  match it_alias it, it_expr it with
  | Some a, _ => Ok a
  | None, OCol c =>
      match col_index cols c with
      | Some i => Ok (nth i cols c)
      | None => Err (no_such_column c)
      end
  | None, _ => Beyond
  end.

(** The names ORDER BY can refer to, in output order. *)
Definition written_names (cols : list string) (l : select_list) : list string :=
  match l with
  | AllColumns => cols
  | Items its =>
      map (fun it => match it_alias it, it_expr it with
                     | Some a, _ => a
                     | None, OCol c => c
                     | None, _ => EmptyString
                     end) its
  end.

(** ORDER BY sorts on an output column; a term that is only a column of the
    table is left to SQLite. *)
Definition resolve_order (cols names : list string) (o : option (string * bool))
    : res (option (nat * bool)) :=
  match o with
  | None => Ok None
  | Some (c, desc) =>
      match col_index names c, col_index cols c with
      | Some j, _ => Ok (Some (j, desc))
      | None, Some _ => Beyond
      | None, None => Err (no_such_column c)
      end
  end.

Definition resolve_group (cols aliases : list string) (g : list string) : res (list nat) :=
  collect (map (fun c => match col_index cols c with
                         | Some i => Ok i
                         | None => if existsb (Text.same_name c) aliases then Beyond
                                   else Err (no_such_column c)
                         end) g).

Definition aliases_of (l : select_list) : list string := omap it_alias (items_of l).

(** [sqlite3] refuses a parameter sequence of the wrong length. *)
Definition check_bindings (needed : nat) (params : list value) : res unit :=
  if bool_decide (length params = needed) then Ok tt
  else Err (ProgrammingError
         ("Incorrect number of bindings supplied. The current statement uses "
          +:+ Text.decimal (Z.of_nat needed) +:+ ", and there are "
          +:+ Text.decimal (Z.of_nat (length params)) +:+ " supplied.")).

Definition rows_cursor (names : list string) (rows : list (list value)) : cursor :=
  {| description := Some names; fetchall := rows; rowcount := -1 |}.

Definition change_cursor (n : nat) : cursor :=
  {| description := None; fetchall := []; rowcount := Z.of_nat n |}.

(** The names of a query without aggregates, resolved against the columns
    of its table: select list, WHERE, ORDER BY. *)
Definition resolve_plain (cols : list string) (q : select)
    : res (list (string * scalar) * (option rcond * option (nat * bool))) :=
  let r_items : res (list (string * scalar)) :=
    match sel_items q with
    | AllColumns => Ok (imap (fun i c => (c, SIdx i)) cols)
    | Items its =>
        collect (map (fun it => both (output_name cols it)
                                     (resolve_scalar cols [] (it_expr it))) its)
    end in
  both r_items
    (both (resolve_where cols (aliases_of (sel_items q)) (sel_where q))
          (resolve_order cols (written_names cols (sel_items q)) (sel_order q))).

(** One output row per row kept by WHERE. *)
Definition plain_rows (en : env) (its : list (string * scalar)) (w : option rcond)
    (rows : list (list value)) : list (list value) :=
  map (fun row => map (fun it => eval_scalar en row it.2) its)
      (filter (fun row => keeps en w row) rows).

(** A query without aggregates. *)
Definition select_rows (t : table) (en : env) (n : nat) (q : select) : res cursor :=
  '(its, (w, o)) ← resolve_plain (tcolumns t) q;
  _ ← check_bindings n (e_params en);
  Ok (rows_cursor (its.*1)
        (limit_rows (sel_limit q) (order_rows o (plain_rows en its w (trows t))))).

(** The names of an aggregate query, resolved against the columns of its
    table: select list, HAVING, WHERE, ORDER BY, GROUP BY. *)
Definition resolve_grouped (cols : list string) (q : select)
    : res (list (string * agg)
           * (option acond * (option rcond * (option (nat * bool) * list nat)))) :=
  let gcols := sel_group q in
  let its := items_of (sel_items q) in
  let r_items : res (list (string * agg)) :=
    match sel_items q with
    | AllColumns => Beyond
    | Items _ =>
        collect (map (fun it => both (output_name cols it)
                                     (resolve_agg cols gcols (it_expr it))) its)
    end in
  let r_having : res (option acond) :=
    match sel_having q, gcols with
    | None, _ => Ok None
    | Some _, [] => Beyond
    | Some c, _ => c' ← resolve_having cols gcols its c; Ok (Some c')
    end in
  both r_items (both r_having
    (both (resolve_where cols (aliases_of (sel_items q)) (sel_where q))
    (both (resolve_order cols (written_names cols (sel_items q)) (sel_order q))
          (resolve_group cols (aliases_of (sel_items q)) gcols)))).

(** The groups of the rows kept by WHERE: one group without GROUP BY. *)
Definition grouped (en : env) (w : option rcond) (gcols : list string) (g : list nat)
    (rows : list (list value)) : list (list (list value)) :=
  let kept := filter (fun row => keeps en w row) rows in
  match gcols with
  | [] => [kept]
  | _ => groups g kept
  end.

(** The output row of a group, and whether the group passes HAVING. *)
Definition group_row (en : env) (ras : list (string * agg)) (h : option acond)
    (grp : list (list value)) : res (list value * option bool) :=
  both (collect (map (fun it => eval_agg en grp it.2) ras))
       (match h with
        | None => Ok (Some true)
        | Some c => holds_group en grp c
        end).

(** An aggregate query: one output row per group that passes HAVING. *)
Definition select_groups (t : table) (en : env) (n : nat) (q : select) : res cursor :=
  '(ras, (h, (w, (o, g)))) ← resolve_grouped (tcolumns t) q;
  _ ← check_bindings n (e_params en);
  out ← collect (map (group_row en ras h) (grouped en w (sel_group q) g (trows t)));
  let passed := filter (fun r => r.2 = Some true) out in
  Ok (rows_cursor (ras.*1) (limit_rows (sel_limit q) (order_rows o (passed.*1)))).

Definition with_rows (t : table) (rows : list (list value)) : table :=
  {| tname := tname t; tcolumns := tcolumns t; tunique := tunique t; trows := rows |}.

(** The first constrained column in which [row] repeats a value of the
    table (NULLs never conflict). *)
Fixpoint conflict (t : table) (row : list value) (us : list string) : option string :=
  match us with
  | [] => None
  | u :: r =>
      match col_index (tcolumns t) u with
      | Some i =>
          let v := nth i row VNull in
          if negb (bool_decide (v = VNull))
             && existsb (fun old => bool_decide (nth i old VNull = v)) (trows t)
          then Some (nth i (tcolumns t) u)
          else conflict t row r
      | None => conflict t row r
      end
  end.

(** The values of an INSERT, which name no column, and their number. *)
Definition resolve_values (name : string) (cols : list string) (vals : list operand)
    : res (list scalar) :=
  let arity : res unit :=
    if bool_decide (length vals = length cols) then Ok tt
    else Err (OperationalError
           ("table " +:+ name +:+ " has "
            +:+ Text.decimal (Z.of_nat (length cols)) +:+ " columns but "
            +:+ Text.decimal (Z.of_nat (length vals)) +:+ " values were supplied")) in
  '(es, _) ← both (collect (map (resolve_scalar [] []) vals)) arity; Ok es.

Definition exec_insert (db : database) (en : env) (n : nat) (tbl : string)
    (vals : list operand) : res (cursor * database) :=
  match find_table db tbl with
  | None => Err (no_such_table tbl)
  | Some t =>
      es ← resolve_values (tname t) (tcolumns t) vals;
      _ ← check_bindings n (e_params en);
      let row := map (eval_scalar en []) es in
      match conflict t row (tunique t) with
      | Some c =>
          Err (IntegrityError ("UNIQUE constraint failed: " +:+ tname t +:+ "." +:+ c))
      | None =>
          Ok (change_cursor 1, <[Text.lower tbl := with_rows t (trows t ++ [row])]> db)
      end
  end.

(** The names of an UPDATE: the column set, its new value, WHERE.  Setting
    a column under a uniqueness constraint is left to SQLite. *)
Definition resolve_update (cols unique : list string) (col : string) (e : operand)
    (w : option cond) : res (nat * (scalar * option rcond)) :=
  let target : res nat :=
    match col_index cols col with
    | Some i => if existsb (Text.same_name col) unique then Beyond else Ok i
    | None => Err (no_such_column col)
    end in
  both target (both (resolve_scalar cols [] e) (resolve_where cols [] w)).

(** A row after UPDATE: column [i] set in the rows WHERE keeps. *)
Definition updated (en : env) (i : nat) (e : scalar) (w : option rcond) (row : list value)
    : list value :=
  if keeps en w row then <[i := eval_scalar en row e]> row else row.

Definition exec_update (db : database) (en : env) (n : nat) (tbl col : string)
    (e : operand) (w : option cond) : res (cursor * database) :=
  match find_table db tbl with
  | None => Err (no_such_table tbl)
  | Some t =>
      '(i, (e', w')) ← resolve_update (tcolumns t) (tunique t) col e w;
      _ ← check_bindings n (e_params en);
      Ok (change_cursor (length (filter (fun row => keeps en w' row) (trows t))),
          <[Text.lower tbl := with_rows t (map (updated en i e' w') (trows t))]> db)
  end.

Definition exec_delete (db : database) (en : env) (n : nat) (tbl : string)
    (w : option cond) : res (cursor * database) :=
  match find_table db tbl with
  | None => Err (no_such_table tbl)
  | Some t =>
      w' ← resolve_where (tcolumns t) [] w;
      _ ← check_bindings n (e_params en);
      Ok (change_cursor (length (filter (fun row => keeps en w' row) (trows t))),
          <[Text.lower tbl := with_rows t (filter (fun row => ¬ keeps en w' row) (trows t))]> db)
  end.

Definition exec (db : database) (en : env) (n : nat) (s : stmt) : res (cursor * database) :=
  match s with
  | Select q =>
      match find_table db (sel_from q) with
      | None => Err (no_such_table (sel_from q))
      | Some t =>
          c ← (if aggregate_query q then select_groups t en n q else select_rows t en n q);
          Ok (c, db)
      end
  | Insert tbl vals => exec_insert db en n tbl vals
  | Update tbl col e w => exec_update db en n tbl col e w
  | Delete tbl w => exec_delete db en n tbl w
  end.

(** One statement, from its text. *)
Definition run (db : database) (today : Z) (sql : string) (params : list value)
    : res (cursor * database) :=
  match prepare sql with
  | None => Beyond
  | Some (s, n) => exec db {| e_today := today; e_params := params |} n s
  end.

(** The first word of a statement, upper-cased. *)
Fixpoint first_word (s : string) (acc : string) : string :=
  match s with
  | EmptyString => acc
  | String c r =>
      if Text.is_word_char c then first_word r (snoc acc (Text.upper_ascii c))
      else if Text.is_space c && bool_decide (acc = EmptyString) then first_word r acc
      else acc
  end.

(** A statement that starts with SELECT reads, and never writes. *)
Definition reads_only (sql : string) : bool := String.eqb (first_word sql EmptyString) "SELECT".

End Sqlite.

(** ** The running script: state and effects *)

(** What Streamlit has rendered: [st.error], [st.success], [st.dataframe]. *)
Inductive element :=
  | StError (body : string)
  | StSuccess (body : string)
  | StDataframe (df : DataFrame).

(** The state a run of the script acts on.  [committed] is the database
    file [customer_data]; [working] is what the shared connection [conn]
    sees, the file together with the changes of its open transaction;
    [today] is SQLite's reading of the clock; [screen] collects what was
    rendered, in order. *)
Record world := {
  committed : Sqlite.database;
  working : Sqlite.database;
  today : Z;
  screen : list element
}.

(** A Python computation: it returns or raises, and changes the world. *)
Definition M (A : Type) : Type := world -> outcome A * world.

#[global] Instance M_ret : MRet M := fun A a w => (Returned a, w).

#[global] Instance M_bind : MBind M := fun A B f m w =>
  match m w with
  | (Returned a, w') => f a w'
  | (Raised e, w') => (Raised e, w')
  end.

Definition raise {A} (e : exn) : M A := fun w => (Raised e, w).

(** [try: body / except Exception as e: handler e] *)
Definition try_except {A} (body : M A) (handler : exn -> M A) : M A := fun w =>
  match body w with
  | (Returned a, w') => (Returned a, w')
  | (Raised e, w') => handler e w'
  end.

(** A subscript or any other call that only returns or raises. *)
Definition lift {A} (o : outcome A) : M A := fun w => (o, w).

Definition render (e : element) : M unit := fun w =>
  (Returned tt, {| committed := committed w; working := working w; today := today w;
                   screen := screen w ++ [e] |}).

Definition st_error (body : string) : M unit := render (StError body).
Definition st_success (body : string) : M unit := render (StSuccess body).
Definition st_dataframe (df : DataFrame) : M unit := render (StDataframe df).

(** [st.number_input(label, min_value, max_value)]: the number the user
    entered, which the widget keeps within its bounds. *)
Definition number_input (min_value max_value entered : Z) : Z :=
  Z.max min_value (Z.min max_value entered).

(** A Python [dict] with string keys and values, in insertion order. *)
Abbreviation dict := (list (string * string)).

(** [d[k] = v]: a key that is present keeps its place. *)
Fixpoint dict_set (k v : string) (d : dict) : dict :=
  match d with
  | [] => [(k, v)]
  | (k', v') :: r => if String.eqb k' k then (k', v) :: r else (k', v') :: dict_set k v r
  end.

(** A dict display [{k1: v1, ...}] inserts its items from left to right. *)
Definition dict_display (items : list (string * string)) : dict :=
  foldl (fun d kv => dict_set kv.1 kv.2 d) [] items.

Fixpoint dict_get (d : dict) (k : string) : option string :=
  match d with
  | [] => None
  | (k', v) :: r => if String.eqb k' k then Some v else dict_get r k
  end.

(** [d[k]] *)
Definition getitem (d : dict) (k : string) : outcome string :=
  match dict_get d k with
  | Some v => Returned v
  | None => Raised (KeyError k)
  end.

(** [list(d.keys())] *)
Definition keys (d : dict) : list string := d.*1.

(** Python's truth value of the [params] argument: [None] and an empty
    sequence are false. *)
Definition truthy (params : option (list value)) : bool :=
  match params with
  | Some (_ :: _) => true
  | _ => false
  end.

(** ** The catalog (lines 80-322) *)

(** The items of the dict display, in source order. *)
Definition queries_items : list (string * string) :=
  [
    ("1. How many customers exist per city, and what is their average account balance?",
"SELECT city, COUNT(*) AS customers, 
               AVG(account_balance) AS avg_balance
               FROM customers c
               JOIN accounts a USING (customer_id)
               GROUP BY city LIMIT 5;");
    ("2. Which account type holds the highest total balance?",
"SELECT 
               c.account_type,
               SUM(a.account_balance) AS total_balance
               FROM customers c
               JOIN accounts a 
               ON c.customer_id = a.customer_id
               GROUP BY c.account_type
               ORDER BY total_balance DESC;");
    ("3. Top 10 customers by total balance across all accounts",
"SELECT 
               c.customer_id,
               c.name,
               c.city,
               c.account_type,
               SUM(a.account_balance) AS total_balance
               FROM customers c
               JOIN accounts a 
               ON c.customer_id = a.customer_id
               GROUP BY c.customer_id, c.name, c.city, c.account_type
               ORDER BY total_balance DESC
               LIMIT 5;");
    ("4. Customers who opened accounts in 2023 with balance > ₹1,00,000",
"SELECT 
               c.customer_id,
               c.name,
               c.city,
               c.account_type,
               a.account_balance,
               c.join_date
               FROM customers c
               JOIN accounts a 
               ON c.customer_id = a.customer_id
               WHERE strftime('%Y', c.join_date) = '2023'
               AND a.account_balance > 100000
               ORDER BY a.account_balance DESC LIMIT 5;");
    ("5. Total transaction volume by transaction type",
"SELECT txn_type, SUM(amount) AS total_transaction_volume
               FROM transactions
               GROUP BY txn_type
               ORDER BY total_transaction_volume DESC;");
    ("6. Accounts with more than 3 failed transactions in a month",
"SELECT customer_id,
                strftime('%Y-%m', txn_time) AS txn_month,
                COUNT(*) AS failed_txn_count
               FROM transactions
               WHERE status = 'failed'
               GROUP BY customer_id, txn_month
               HAVING COUNT(*) > 2
               ORDER BY failed_txn_count DESC LIMIT 5;");
    ("7. Top 5 branches by transaction volume (last 6 months)",
"SELECT b.Branch_Name,
                SUM(t.amount) AS total_transaction_volume
               FROM transactions t
               JOIN customers c ON t.customer_id = c.customer_id
               JOIN branches b ON c.city = b.City
               WHERE t.txn_time >= strftime('%Y-%m-%d', 'now', '-6 months')
               GROUP BY b.Branch_Name
               ORDER BY total_transaction_volume DESC LIMIT 5;");
    ("8. Accounts with 5+ high-value transactions (₹95,000+)",
"SELECT customer_id, COUNT(txn_id) AS high_value_transaction_count
               FROM transactions
               WHERE amount >= 95000 AND status = 'success'
               GROUP BY customer_id
               HAVING COUNT(txn_id) >= 5
               ORDER BY high_value_transaction_count DESC LIMIT 5;");
    ("9. Avg loan amount & interest rate by loan type",
"SELECT Loan_Type,
                      AVG(Loan_Amount) AS avg_loan_amount,
                      AVG(Interest_Rate) AS avg_interest_rate
               FROM loans
               GROUP BY Loan_Type
               ORDER BY avg_loan_amount DESC;");
    ("10. Customers holding more than one active loan",
"SELECT Customer_ID,
                      COUNT(*) AS active_loans
               FROM loans
               WHERE Loan_Status IN ('Active', 'Approved')
               GROUP BY Customer_ID
               HAVING COUNT(*) > 1
               ORDER BY active_loans DESC LIMIT 5;");
    ("11. Top 5 customers with highest outstanding loan amount",
"SELECT Customer_ID,
                      SUM(Loan_Amount) AS total_outstanding
               FROM loans
               WHERE Loan_Status != 'Closed'
               GROUP BY Customer_ID
               ORDER BY total_outstanding DESC LIMIT 5;");
    ("12. Branch with highest account balance",
"SELECT b.Branch_Name,
                      SUM(a.account_balance) AS total_balance
               FROM accounts a
               JOIN customers c ON a.customer_id = c.customer_id
               JOIN branches b ON c.city = b.City
               GROUP BY b.Branch_Name
               ORDER BY total_balance DESC LIMIT 5;");
    ("13. Branch performance (customers, loans, transactions)",
"SELECT b.Branch_Name,
                      COUNT(DISTINCT c.customer_id) AS total_customers,
                      COUNT(DISTINCT l.Loan_ID) AS total_loans,
                      SUM(t.amount) AS total_transaction_volume
               FROM branches b
               LEFT JOIN customers c ON c.city = b.City
               LEFT JOIN loans l ON l.Branch = b.Branch_Name
               LEFT JOIN transactions t ON t.customer_id = c.customer_id
               GROUP BY b.Branch_Name;");
    ("14. Issue categories with longest resolution time",
"SELECT issue_category,
                      AVG(JULIANDAY(date_closed) - JULIANDAY(date_opened)) AS avg_resolution_days
               FROM support_tickets
               WHERE date_opened IS NOT NULL
               GROUP BY issue_category
               ORDER BY avg_resolution_days DESC;");
    ("15. Agents resolving most critical tickets with rating ≥ 4",
"SELECT Support_Agent,
                      COUNT(*) AS resolved_critical_high_rating
               FROM support_tickets
               WHERE priority = 'Critical'
                 AND Customer_Rating >= 4
                 AND status = 'Resolved'
               GROUP BY Support_Agent
               ORDER BY resolved_critical_high_rating DESC;");
    ("16. How many customers exist in each city?",
"SELECT city, COUNT(*) AS total_customers
            FROM customers
            GROUP BY city;
            ");
    ("17. What is the average account balance by account type?",
"SELECT account_type, AVG(account_balance) AS avg_balance
            FROM customers c
            JOIN accounts a ON c.customer_id = a.customer_id
            GROUP BY account_type;");
    ("18. Who are the top 10 customers by total account balance?",
"SELECT c.name, SUM(a.account_balance) AS total_balance
            FROM customers c
            JOIN accounts a ON c.customer_id = a.customer_id
            GROUP BY c.customer_id
            ORDER BY total_balance DESC
            LIMIT 10;");
    ("19. Which customers opened accounts in 2023 with balance > ₹1,00,000?",
"SELECT c.customer_id, c.name, a.account_balance
            FROM customers c
            JOIN accounts a ON c.customer_id = a.customer_id
            WHERE strftime('%Y', c.join_date) = '2023'
            AND a.account_balance > 100000;");
    ("20. Total transaction volume by transaction type",
"SELECT txn_type, SUM(amount) AS total_volume
            FROM transactions
            GROUP BY txn_type;");
    ("21.Support agents who resolved most critical tickets with rating ≥ 4",
"SELECT 
            support_agent,
            COUNT(*) AS resolved_tickets
            FROM tickets
            WHERE priority = 'Critical'
            AND customer_rating >= 4
            AND status = 'Resolved'
            GROUP BY support_agent
            ORDER BY resolved_tickets DESC;
            ");
    ("22. Retrieve all customers who have not updated their account balance in the last 30 days.",
"SELECT *
            FROM accounts
            WHERE last_updated < DATE('now', '-30 days');
            ");
    ("23. Find the average age of customers for each account type.",
"SELECT account_type, AVG(age) AS avg_age
            FROM customers
            GROUP BY account_type;
            ");
    ("24. Count how many transactions happened on weekends.",
"SELECT COUNT(*) AS weekend_transactions
            FROM transactions
            WHERE strftime('%w', txn_time) IN ('0','6');
            ");
    ("25. Find customers who made at least one transaction above ₹50,000.",
"SELECT DISTINCT customer_id
            FROM transactions
            WHERE amount > 50000;
            ");
    ("26. Get the total number of failed transactions per customer.",
"SELECT customer_id, COUNT(*) AS failed_count
            FROM transactions
            WHERE status = 'failed'
            GROUP BY customer_id;
            ");
    ("7. Find the 10 earliest registered customers.",
"SELECT *
            FROM customers
            ORDER BY join_date
            LIMIT 10;
            ");
    ("28. Retrieve customers who live in the same city as more than 2 other customers.",
"SELECT city, COUNT(*) AS num_customers
            FROM customers
            GROUP BY city
            HAVING num_customers > 2;
            ");
    ("29. Find the count of transactions by status (success/failed).",
"SELECT status, COUNT(*) AS count
            FROM transactions
            GROUP BY status;
            ");
    ("30. Show customers whose name starts with 'A'.",
"SELECT *
            FROM customers
            WHERE name LIKE 'A%';
            ")
  ].

Definition queries : dict := dict_display queries_items.

(** ** The connection, pandas and the script *)

Section Script.

(** What SQLite does with a statement outside the grammar of [Sqlite]: the
    cursor or the error, and the database after it. *)
Variable beyond :
  string -> list value -> Z -> Sqlite.database -> outcome Sqlite.cursor * Sqlite.database.

(** One statement on a database.  A statement that fails changes nothing;
    outside the grammar, a statement that starts with SELECT changes nothing
    either. *)
Definition sqlite_step (sql : string) (params : list value) (now : Z) (db : Sqlite.database)
    : outcome Sqlite.cursor * Sqlite.database :=
  match Sqlite.run db now sql params with
  | Sqlite.Ok (c, db') => (Returned c, db')
  | Sqlite.Err e => (Raised e, db)
  | Sqlite.Beyond =>
      if Sqlite.reads_only sql then ((beyond sql params now db).1, db)
      else beyond sql params now db
  end.

(** [conn.execute(sql, params)]: the statement runs in the connection's
    transaction. *)
Definition conn_execute (sql : string) (params : list value) : M Sqlite.cursor := fun w =>
  let r := sqlite_step sql params (today w) (working w) in
  (r.1, {| committed := committed w; working := r.2; today := today w; screen := screen w |}).

(** [conn.commit()] *)
Definition conn_commit : M unit := fun w =>
  (Returned tt, {| committed := working w; working := working w; today := today w;
                   screen := screen w |}).

(** [conn.rollback()] *)
Definition conn_rollback : M unit := fun w =>
  (Returned tt, {| committed := committed w; working := committed w; today := today w;
                   screen := screen w |}).

(** [pd.read_sql_query(sql, conn, params=params)].  pandas executes the
    statement on a cursor of the connection; when that raises it rolls the
    connection back and raises its own [DatabaseError] around the message;
    otherwise it builds the frame from the cursor's description and rows
    (the cells stay as the driver returned them). *)
Definition read_sql_query (sql : string) (params : option (list value)) : M DataFrame :=
  cur ← try_except (conn_execute sql (default [] params))
          (fun exc =>
             conn_rollback;;
             raise (DatabaseError ("Execution failed on sql '" +:+ sql +:+ "': " +:+ str exc)));
  match Sqlite.description cur with
  | Some names => mret {| columns := names; rows := Sqlite.fetchall cur |}
  | None => raise (TypeError "'NoneType' object is not iterable")
  end.

(** [run_query] (lines 22-31) *)
Definition run_query (query : string) (params : option (list value)) : M DataFrame :=
  try_except
    (df ← (if truthy params then read_sql_query query params
           else read_sql_query query None);
     mret df)
    (fun e => st_error ("SQL Error: " +:+ str e);; mret empty_DataFrame).

(** Page "View Tables" (lines 68-72), for the table chosen in the select box. *)
Definition tables : list string :=
  ["customers"; "accounts"; "transactions"; "loans"; "credit_cards"; "branches";
   "support_tickets"].

Definition view_table (choice : string) : M unit :=
  df ← run_query ("SELECT * FROM " +:+ choice) None;
  st_dataframe df.

(** Page "SQLite Queries" (lines 324-328): [selected] is the entry chosen in
    the select box over [list(queries.keys())]; the body runs when the
    button "Run Query" was clicked. *)
Definition run_selected (selected : string) (clicked : bool) : M unit :=
  if clicked then
    sql ← lift (getitem queries selected);
    df ← run_query sql None;
    st_dataframe df
  else mret tt.

(** Page "CRUD Operations", action "Create" (lines 339-354). *)
Definition crud_create (cid name gender : string) (age_entered : Z)
    (city account_type : string) (clicked : bool) : M unit :=
  let age := number_input 1 120 age_entered in
  if clicked then
    try_except
      (conn_execute "INSERT INTO customers VALUES (?,?,?,?,?,?, DATE('now'))"
         [VText cid; VText name; VText gender; VInt age; VText city; VText account_type];;
       conn_commit;;
       st_success "Customer added successfully!")
      (fun e => st_error (str e))
  else mret tt.

(** Action "Read" (lines 357-360). *)
Definition crud_read : M unit :=
  df ← run_query "SELECT * FROM customers" None;
  st_dataframe df.

(** Action "Update" (lines 363-371). *)
Definition crud_update (cid new_city : string) (clicked : bool) : M unit :=
  if clicked then
    conn_execute "UPDATE customers SET city=? WHERE customer_id=?" [VText new_city; VText cid];;
    conn_commit;;
    st_success "Customer updated!"
  else mret tt.

(** Action "Delete" (lines 374-381). *)
Definition crud_delete (cid : string) (clicked : bool) : M unit :=
  if clicked then
    conn_execute "DELETE FROM customers WHERE customer_id=?" [VText cid];;
    conn_commit;;
    st_success "Customer deleted!"
  else mret tt.

End Script.

Arguments sqlite_step : simpl never.

(** ** Worlds the theorems start from *)

(** The script just started on the database [db]: no transaction is open,
    nothing is rendered. *)
Definition opened (db : Sqlite.database) (now : Z) : world :=
  {| committed := db; working := db; today := now; screen := [] |}.

(** The same world on another day. *)
Definition on_day (now : Z) (w : world) : world :=
  {| committed := committed w; working := working w; today := now; screen := screen w |}.

(** The world after [screen] grew by [es]. *)
Definition showing (es : list element) (w : world) : world :=
  {| committed := committed w; working := working w; today := today w;
     screen := screen w ++ es |}.

(** An engine that knows no statement outside the grammar, for the examples:
    the statements of the examples are all inside it. *)
Definition grammar_only (sql : string) (params : list value) (now : Z) (db : Sqlite.database)
    : outcome Sqlite.cursor * Sqlite.database :=
  (Raised (OperationalError "statement outside the grammar"), db).

(** The world after the connection committed its view [db]. *)
Definition changed (db : Sqlite.database) (w : world) : world :=
  {| committed := db; working := db; today := today w; screen := screen w |}.

(** What was rendered between the worlds [w] and [w']. *)
Definition rendered_since (w w' : world) : list element :=
  drop (length (screen w)) (screen w').

(** A statement that reads only: it starts with SELECT, and is a SELECT of
    the grammar or outside the grammar. *)
Definition selects (sql : string) : bool :=
  Sqlite.reads_only sql
  && match Sqlite.prepare sql with
     | Some (Sqlite.Select _, _) | None => true
     | Some _ => false
     end.

(** ** The tables the script expects *)

(** Modelled from the spec: the declaration of the table [customers], made
    outside [bank.py] by the process that seeds the database:
    [customers(customer_id PK, name, gender, age, city, account_type,
    join_date)]. *)
Definition customers_columns : list string :=
  ["customer_id"; "name"; "gender"; "age"; "city"; "account_type"; "join_date"].

(** Modelled from the spec: a table declared as [customers] is, with its
    primary key on [customer_id]. *)
Definition documented_customers (t : Sqlite.table) : Prop :=
  Sqlite.tname t = "customers"
  /\ Sqlite.tcolumns t = customers_columns
  /\ Sqlite.tunique t = ["customer_id"].

(** Modelled from the spec: the declaration of the table [transactions]:
    [transactions(txn_id, customer_id FK, txn_type, amount, status,
    txn_time)]. *)
Definition transactions_columns : list string :=
  ["txn_id"; "customer_id"; "txn_type"; "amount"; "status"; "txn_time"].

Definition customers_table (rows : list (list value)) : Sqlite.table :=
  {| Sqlite.tname := "customers"; Sqlite.tcolumns := customers_columns;
     Sqlite.tunique := ["customer_id"]; Sqlite.trows := rows |}.

Definition transactions_table (rows : list (list value)) : Sqlite.table :=
  {| Sqlite.tname := "transactions"; Sqlite.tcolumns := transactions_columns;
     Sqlite.tunique := []; Sqlite.trows := rows |}.

(** The identifier of a customer row. *)
Definition customer_id (row : list value) : value := nth 0 row VNull.

Definition has_id (cid : string) (row : list value) : Prop := customer_id row = VText cid.

#[global] Instance has_id_dec (cid : string) (row : list value) : Decision (has_id cid row).
Proof. unfold has_id. apply _. Defined.

(** The customer rows of a database with a given identifier. *)
Definition customers_with (cid : string) (db : Sqlite.database) : list (list value) :=
  match db !! "customers" with
  | Some t => filter (has_id cid) (Sqlite.trows t)
  | None => []
  end.

(** What [UPDATE customers SET city=? WHERE customer_id=?] does to a row. *)
Definition set_city (cid new_city : string) (row : list value) : list value :=
  if decide (has_id cid row) then <[4%nat := VText new_city]> row else row.

(** A row as [SELECT *] returns it: the seven declared columns. *)
Definition seven (row : list value) : list value :=
  map (fun i => nth i row VNull) (seq 0 7).

(** The row that "Create" submits. *)
Definition new_customer (cid name gender : string) (age_entered : Z)
    (city account_type : string) (now : Z) : list value :=
  [VText cid; VText name; VText gender; VInt (number_input 1 120 age_entered);
   VText city; VText account_type; Sqlite.sql_date now].

(** ** Example databases *)

Definition ann : list value :=
  [VText "C1"; VText "Ann"; VText "F"; VInt 30; VText "Pune"; VText "Savings";
   VText "2023-01-01"].

(** One customer, C1. *)
Definition one_customer : Sqlite.database := {[ "customers" := customers_table [ann] ]}.

(** One account, last updated on 2024-01-01. *)
Definition one_account : Sqlite.database :=
  {[ "accounts" :=
       {| Sqlite.tname := "accounts";
          Sqlite.tcolumns := ["account_id"; "customer_id"; "account_balance"; "last_updated"];
          Sqlite.tunique := [];
          Sqlite.trows := [[VInt 1; VText "C1"; VInt 500; VText "2024-01-01"]] |} ]}.

(** The transactions of the spec's example: two deposits of 100 and 50 and a
    withdrawal of 30; the other columns are free. *)
Definition example_transactions (i1 c1 s1 t1 i2 c2 s2 t2 i3 c3 s3 t3 : value)
    : list (list value) :=
  [[i1; c1; VText "deposit"; VInt 100; s1; t1];
   [i2; c2; VText "deposit"; VInt 50; s2; t2];
   [i3; c3; VText "withdrawal"; VInt 30; s3; t3]].

(** The frame the spec's example expects. *)
Definition expected_volume : DataFrame :=
  {| columns := ["txn_type"; "total"];
     rows := [[VText "deposit"; VInt 150]; [VText "withdrawal"; VInt 30]] |}.

(** A database with the seven tables of [tables], all empty (the columns of
    the last four are the ones the catalog names). *)
Definition seven_tables : Sqlite.database :=
  let empty (name : string) (cols : list string) : string * Sqlite.table :=
    (name, {| Sqlite.tname := name; Sqlite.tcolumns := cols; Sqlite.tunique := [];
              Sqlite.trows := [] |}) in
  list_to_map
    [("customers", customers_table []);
     ("transactions", transactions_table []);
     empty "accounts" ["account_id"; "customer_id"; "account_balance"; "last_updated"];
     empty "loans" ["Loan_ID"; "Customer_ID"; "Loan_Type"; "Loan_Amount"; "Interest_Rate";
                    "Loan_Status"; "Branch"];
     empty "credit_cards" ["card_id"; "customer_id"];
     empty "branches" ["Branch_Name"; "City"];
     empty "support_tickets" ["ticket_id"; "issue_category"; "date_opened"; "date_closed";
                              "Support_Agent"; "priority"; "Customer_Rating"; "status"]].

(** The example with its free columns filled in, and nothing else. *)
Definition example_store : Sqlite.database :=
  {[ "transactions" :=
       transactions_table
         (example_transactions
            (VInt 1) (VText "C1") (VText "success") (VText "2024-01-01")
            (VInt 2) (VText "C2") (VText "success") (VText "2024-01-02")
            (VInt 3) (VText "C1") (VText "failed") (VText "2024-01-03")) ]}.

(** The labels of four catalog entries. *)
Definition volume_by_type : string := "5. Total transaction volume by transaction type".
Definition volume_by_type_20 : string := "20. Total transaction volume by transaction type".
Definition stale_accounts : string :=
  "22. Retrieve all customers who have not updated their account balance in the last 30 days.".
Definition critical_agents : string :=
  "21.Support agents who resolved most critical tickets with rating ≥ 4".

(** Entry 22, run from the world [w]. *)
Definition stale_run (w : world) : outcome unit * world :=
  run_selected grammar_only stale_accounts true w.

(** ** Rows and tables, for the facts on the handlers *)

(** The rows of [customers] in a database. *)
Definition customers_rows (db : Sqlite.database) : list (list value) :=
  match db !! "customers" with
  | Some t => Sqlite.trows t
  | None => []
  end.

(** Every row holds one value per declared column, as in any table SQLite
    stores. *)
Definition well_formed (t : Sqlite.table) : Prop :=
  Forall (fun row => length row = length (Sqlite.tcolumns t)) (Sqlite.trows t).

(** A customer row with another city and every other field as it was. *)
Definition with_city (city : string) (row : list value) : list value :=
  [nth 0 row VNull; nth 1 row VNull; nth 2 row VNull; nth 3 row VNull; VText city;
   nth 5 row VNull; nth 6 row VNull].

(** [SELECT * FROM name], parsed. *)
Definition select_all (name : string) : Sqlite.select :=
  {| Sqlite.sel_items := Sqlite.AllColumns; Sqlite.sel_from := name;
     Sqlite.sel_where := None; Sqlite.sel_group := []; Sqlite.sel_having := None;
     Sqlite.sel_order := None; Sqlite.sel_limit := None |}.

(** A row as [SELECT *] returns it from a table of [n] columns. *)
Definition across (n : nat) (row : list value) : list value :=
  map (fun i => nth i row VNull) (seq 0 n).

(** A second customer, for the examples. *)
Definition bea : list value :=
  [VText "C2"; VText "Bea"; VText "F"; VInt 41; VText "Delhi"; VText "Current";
   VText "2023-05-05"].

Definition two_customers : Sqlite.database := {[ "customers" := customers_table [ann; bea] ]}.

(** *** Charts *)

(** The order in which [GROUP BY] sorts the rows. *)
Definition before (idx : list nat) (a b : list value) : Prop :=
  Sqlite.not_after (Sqlite.compare_keys (Sqlite.key idx a) (Sqlite.key idx b)) = true.

Definition group_key (idx : list nat) (g : list (list value)) : list value :=
  Sqlite.key idx (hd [] g).

(** The value a group has in the column of [GROUP BY]. *)
Definition group_value (i : nat) (g : list (list value)) : value := nth i (hd [] g) VNull.

(** The statement of the chart "Customers by City". *)
Definition customers_by_city : string :=
  "SELECT city, COUNT(*) AS total FROM customers GROUP BY city".

Definition city (row : list value) : value := nth 4 row VNull.

(** The number of customers of a city. *)
Definition customers_in (c : value) (rows : list (list value)) : nat :=
  length (filter (fun row => city row = c) rows).

(** The statement of the chart "Transaction Volume by Type". *)
Definition volume_by_type_chart : string :=
  "SELECT txn_type, SUM(amount) AS total FROM transactions GROUP BY txn_type".

Definition documented_transactions (t : Sqlite.table) : Prop :=
  Sqlite.tname t = "transactions" /\ Sqlite.tcolumns t = transactions_columns.

Definition txn_type (row : list value) : value := nth 2 row VNull.

Definition amount (row : list value) : Z :=
  match nth 3 row VNull with
  | VInt z => z
  | _ => 0
  end.

(** The sum of the amounts of some transactions. *)
Definition volume (rows : list (list value)) : Z :=
  foldr (fun row acc => amount row + acc) 0 rows.

Definition of_type (ty : value) (rows : list (list value)) : list (list value) :=
  filter (fun row => txn_type row = ty) rows.

(** Amounts stored as non-negative integers. *)
Definition whole_amounts (rows : list (list value)) : Prop :=
  Forall (fun row => exists z, nth 3 row VNull = VInt z /\ 0 <= z) rows.

(** The transactions of [example_store]. *)
Definition example_rows : list (list value) :=
  example_transactions
    (VInt 1) (VText "C1") (VText "success") (VText "2024-01-01")
    (VInt 2) (VText "C2") (VText "success") (VText "2024-01-02")
    (VInt 3) (VText "C1") (VText "failed") (VText "2024-01-03").

(** ** Proof steps *)

(** Replace a closed term by its value. *)
Ltac evaluate t :=
  let v := eval vm_compute in t in
  replace t with v by (vm_compute; reflexivity).

(** The binds of [Sqlite.res], from the outside in. *)
Ltac next_bind := unfold mbind at 1, Sqlite.res_bind at 1.

(** * Facts *)

(** ** The catalog *)

Lemma queries_as_written : queries = queries_items.
Proof. vm_compute. reflexivity. Qed.

Lemma dict_get_present (d : dict) (k : string) :
  k ∈ keys d -> exists v, dict_get d k = Some v /\ (k, v) ∈ d.
Proof.
  induction d as [|[k' v'] d IH]; cbn.
  - intros H. inversion H.
  - intros H. destruct (String.eqb_spec k' k) as [->|Hne].
    + exists v'. split; [reflexivity | left].
    + apply elem_of_cons in H as [H|H]; [congruence|].
      destruct (IH H) as (v & Hv & Hin). exists v. split; [exact Hv | by right].
Qed.

Lemma dict_get_absent (d : dict) (k : string) :
  k ∉ keys d -> dict_get d k = None.
Proof.
  induction d as [|[k' v'] d IH]; cbn; [reflexivity|].
  intros H. apply not_elem_of_cons in H as [Hne Hd].
  destruct (String.eqb_spec k' k) as [->|_]; [congruence | by apply IH].
Qed.

Lemma queries_statements_nonempty : Forall (fun kv : string * string => kv.2 <> "") queries.
Proof.
  rewrite queries_as_written. refine (bool_decide_unpack _ _). vm_compute. exact I.
Qed.

Lemma queries_keys_distinct : NoDup (keys queries).
Proof.
  rewrite queries_as_written. refine (bool_decide_unpack _ _). vm_compute. exact I.
Qed.

(** C8. The catalog is the dict display of lines 80-322, a constant of the
    script that no handler takes or returns; its keys are enumerated in the
    order of the display and are pairwise distinct; subscripting it with one
    of its keys returns a statement that is not the empty string, and with
    any other string raises [KeyError]. *)
Theorem catalog_lookup (id : string) :
  keys queries = queries_items.*1
  /\ NoDup (keys queries)
  /\ (id ∈ keys queries -> exists sql, getitem queries id = Returned sql /\ sql <> "")
  /\ (id ∉ keys queries -> getitem queries id = Raised (KeyError id)).
Proof.
  split; [by rewrite queries_as_written|].
  split; [exact queries_keys_distinct|].
  split.
  - intros Hin. destruct (dict_get_present _ _ Hin) as (sql & Hget & Hmem).
    exists sql. unfold getitem. rewrite Hget. split; [reflexivity|].
    pose proof queries_statements_nonempty as Hall.
    rewrite Forall_forall in Hall. exact (Hall _ Hmem).
  - intros Hout. unfold getitem. by rewrite (dict_get_absent _ _ Hout).
Qed.

(** ** [run_query] *)

Section RunQuery.

Variable beyond :
  string -> list value -> Z -> Sqlite.database -> outcome Sqlite.cursor * Sqlite.database.

(** Both branches of [if params:] hand the same bindings to the driver. *)
Lemma run_query_branches (query : string) (params : option (list value)) (w : world) :
  (if truthy params then read_sql_query beyond query params
   else read_sql_query beyond query None) w
  = read_sql_query beyond query (if truthy params then params else None) w.
Proof. destruct (truthy params); reflexivity. Qed.

Lemma bindings_of_branches (params : option (list value)) :
  default [] (if truthy params then params else None) = default [] params.
Proof. destruct params as [[|v l]|]; reflexivity. Qed.

(** What [pd.read_sql_query] does, by what the driver does. *)
Lemma read_sql_query_cases (query : string) (params : option (list value)) (w : world) :
  read_sql_query beyond query params w =
  match sqlite_step beyond query (default [] params) (today w) (working w) with
  | (Raised exc, _) =>
      (Raised (DatabaseError ("Execution failed on sql '" +:+ query +:+ "': " +:+ str exc)),
       {| committed := committed w; working := committed w; today := today w;
          screen := screen w |})
  | (Returned cur, db) =>
      let w' := {| committed := committed w; working := db; today := today w;
                   screen := screen w |} in
      match Sqlite.description cur with
      | Some names => (Returned {| columns := names; rows := Sqlite.fetchall cur |}, w')
      | None => (Raised (TypeError "'NoneType' object is not iterable"), w')
      end
  end.
Proof.
  unfold read_sql_query, try_except, conn_execute, mbind, M_bind, mret, M_ret.
  destruct (sqlite_step beyond query (default [] params) (today w) (working w))
    as [[cur|exc] db]; cbn; [|reflexivity].
  destruct (Sqlite.description cur); reflexivity.
Qed.

(** [run_query], by what the driver does: the handler of line 29 turns
    every exception into a rendered message and the empty frame. *)
Lemma run_query_cases (query : string) (params : option (list value)) (w : world) :
  run_query beyond query params w =
  match sqlite_step beyond query (default [] params) (today w) (working w) with
  | (Raised exc, _) =>
      (Returned empty_DataFrame,
       showing [StError ("SQL Error: Execution failed on sql '" +:+ query
                         +:+ "': " +:+ str exc)]
         {| committed := committed w; working := committed w;
            today := today w; screen := screen w |})
  | (Returned cur, db) =>
      let w' := {| committed := committed w; working := db; today := today w;
                   screen := screen w |} in
      match Sqlite.description cur with
      | Some names => (Returned {| columns := names; rows := Sqlite.fetchall cur |}, w')
      | None =>
          (Returned empty_DataFrame,
           showing [StError "SQL Error: 'NoneType' object is not iterable"] w')
      end
  end.
Proof.
  unfold run_query, try_except.
  unfold mbind at 1, M_bind at 1.
  rewrite run_query_branches, read_sql_query_cases, bindings_of_branches.
  destruct (sqlite_step beyond query (default [] params) (today w) (working w))
    as [[cur|exc] db]; [|reflexivity].
  cbv zeta. destruct (Sqlite.description cur) as [names|]; reflexivity.
Qed.

(** "Create" catches what the driver raises; "Update" and "Delete" do not. *)
Lemma crud_create_cases (cid name gender : string) (age : Z) (city account_type : string)
    (w : world) :
  crud_create beyond cid name gender age city account_type true w =
  match sqlite_step beyond "INSERT INTO customers VALUES (?,?,?,?,?,?, DATE('now'))"
          [VText cid; VText name; VText gender; VInt (number_input 1 120 age);
           VText city; VText account_type] (today w) (working w) with
  | (Returned _, db') =>
      (Returned tt, showing [StSuccess "Customer added successfully!"] (changed db' w))
  | (Raised e, db') =>
      (Returned tt,
       showing [StError (str e)]
         {| committed := committed w; working := db'; today := today w; screen := screen w |})
  end.
Proof.
  unfold crud_create, try_except, mbind, M_bind, conn_execute.
  destruct (sqlite_step _ _ _ _ _) as [[c|e] db']; reflexivity.
Qed.

Lemma crud_update_cases (cid city : string) (w : world) :
  crud_update beyond cid city true w =
  match sqlite_step beyond "UPDATE customers SET city=? WHERE customer_id=?"
          [VText city; VText cid] (today w) (working w) with
  | (Returned _, db') =>
      (Returned tt, showing [StSuccess "Customer updated!"] (changed db' w))
  | (Raised e, db') =>
      (Raised e,
       {| committed := committed w; working := db'; today := today w; screen := screen w |})
  end.
Proof.
  unfold crud_update, mbind, M_bind, conn_execute.
  destruct (sqlite_step _ _ _ _ _) as [[c|e] db']; reflexivity.
Qed.

Lemma crud_delete_cases (cid : string) (w : world) :
  crud_delete beyond cid true w =
  match sqlite_step beyond "DELETE FROM customers WHERE customer_id=?"
          [VText cid] (today w) (working w) with
  | (Returned _, db') =>
      (Returned tt, showing [StSuccess "Customer deleted!"] (changed db' w))
  | (Raised e, db') =>
      (Raised e,
       {| committed := committed w; working := db'; today := today w; screen := screen w |})
  end.
Proof.
  unfold crud_delete, mbind, M_bind, conn_execute.
  destruct (sqlite_step _ _ _ _ _) as [[c|e] db']; reflexivity.
Qed.

End RunQuery.

(** C2. [run_query] returns for every statement text and every binding,
    whatever the driver does.  When the driver raises, it returns the frame
    without columns and rows and renders the driver's message (inside the
    message pandas builds around it); when the driver produces rows, zero
    rows included, it returns them under the cursor's column names and
    renders nothing. *)
Theorem run_query_never_raises
    (beyond : string -> list value -> Z -> Sqlite.database
              -> outcome Sqlite.cursor * Sqlite.database)
    (query : string) (params : option (list value)) (w : world) :
  exists df w',
    run_query beyond query params w = (Returned df, w')
    /\ match sqlite_step beyond query (default [] params) (today w) (working w) with
       | (Raised exc, _) =>
           df = empty_DataFrame
           /\ w' = showing [StError ("SQL Error: Execution failed on sql '" +:+ query
                                     +:+ "': " +:+ str exc)]
                     {| committed := committed w; working := committed w;
                        today := today w; screen := screen w |}
       | (Returned cur, db) =>
           match Sqlite.description cur with
           | Some names =>
               df = {| columns := names; rows := Sqlite.fetchall cur |}
               /\ w' = {| committed := committed w; working := db; today := today w;
                          screen := screen w |}
           | None =>
               df = empty_DataFrame
               /\ screen w' = (screen w ++ [StError "SQL Error: 'NoneType' object is not iterable"])%list
           end
       end.
Proof.
  rewrite run_query_cases.
  destruct (sqlite_step beyond query (default [] params) (today w) (working w))
    as [[cur|exc] db].
  - cbv zeta. destruct (Sqlite.description cur) as [names|]; eauto.
  - eauto.
Qed.

(** ** Update and Delete have no handler *)

(** C1, at a database file without a table [customers] (what
    [sqlite3.connect] creates when the file is missing): the driver's
    [OperationalError] leaves "Update" and "Delete" as it was raised, while
    "Create" catches the same error and renders it. *)
Theorem update_and_delete_let_the_driver_error_escape
    (beyond : string -> list value -> Z -> Sqlite.database
              -> outcome Sqlite.cursor * Sqlite.database)
    (cid name gender city account_type : string) (age now : Z) :
  crud_update beyond cid city true (opened ∅ now)
    = (Raised (OperationalError "no such table: customers"), opened ∅ now)
  /\ crud_delete beyond cid true (opened ∅ now)
    = (Raised (OperationalError "no such table: customers"), opened ∅ now)
  /\ crud_create beyond cid name gender age city account_type true (opened ∅ now)
    = (Returned tt, showing [StError "no such table: customers"] (opened ∅ now)).
Proof.
  repeat split; reflexivity.
Qed.

(** ** The statements on [customers] *)

Lemma compare_same (s : string) : String.compare s s = Eq.
Proof.
  pose proof (String.compare_antisym s s) as H.
  destruct (String.compare s s); cbn in H; congruence.
Qed.

(** [x = 'text'] is true exactly for the text itself. *)
Lemma test_eq_text (v : value) (s : string) :
  Sqlite.test Sqlite.OpEq v (VText s) = Some true <-> v = VText s.
Proof.
  destruct v as [|z|u]; cbn; [split; discriminate | split; discriminate |].
  split.
  - destruct (String.compare u s) eqn:E; cbn; try discriminate.
    intros _. f_equal. by apply String.compare_eq_iff.
  - intros [= ->]. by rewrite compare_same.
Qed.

(** [WHERE customer_id = ?], with the k-th parameter bound to [cid]. *)
Lemma keeps_id (now : Z) (params : list value) (k : nat) (cid : string) (row : list value) :
  nth k params VNull = VText cid ->
  Sqlite.keeps {| Sqlite.e_today := now; Sqlite.e_params := params |}
    (Some (Sqlite.RCmp Sqlite.OpEq (Sqlite.SIdx 0) (Sqlite.SPar k))) row
  = bool_decide (has_id cid row).
Proof.
  intros Hk. unfold Sqlite.keeps, Sqlite.holds, Sqlite.eval_scalar, Sqlite.e_params.
  rewrite Hk. apply bool_decide_ext. apply test_eq_text.
Qed.

Lemma filter_keeps_id (now : Z) (params : list value) (k : nat) (cid : string)
    (rows : list (list value)) :
  nth k params VNull = VText cid ->
  filter (fun row => Sqlite.keeps {| Sqlite.e_today := now; Sqlite.e_params := params |}
                       (Some (Sqlite.RCmp Sqlite.OpEq (Sqlite.SIdx 0) (Sqlite.SPar k))) row) rows
  = filter (has_id cid) rows.
Proof.
  intros Hk. apply list_filter_iff. intros row. rewrite (keeps_id _ _ _ _ _ Hk).
  apply bool_decide_spec.
Qed.

Lemma filter_keeps_all (en : Sqlite.env) (rows : list (list value)) :
  filter (fun row => Sqlite.keeps en None row) rows = rows.
Proof.
  induction rows as [|r rows IH]; [reflexivity|].
  rewrite filter_cons_True by exact I. by rewrite IH.
Qed.

Lemma existsb_has_id (cid : string) (rows : list (list value)) :
  existsb (fun old => bool_decide (nth 0 old VNull = VText cid)) rows = false
  <-> filter (has_id cid) rows = [].
Proof.
  induction rows as [|r rows IH]; cbn [existsb]; [done|].
  destruct (decide (has_id cid r)) as [H|H].
  - rewrite filter_cons_True by done. rewrite bool_decide_eq_true_2 by exact H.
    cbn. split; discriminate.
  - rewrite filter_cons_False by done. rewrite bool_decide_eq_false_2 by exact H.
    exact IH.
Qed.

Section Customers.

Variable beyond :
  string -> list value -> Z -> Sqlite.database -> outcome Sqlite.cursor * Sqlite.database.

Variables (db : Sqlite.database) (t : Sqlite.table) (now : Z).
Hypothesis table_there : db !! "customers" = Some t.
Hypothesis as_documented : documented_customers t.

(** The INSERT of "Create": refused when the identifier is taken, and
    otherwise one more row, dated by SQLite. *)
Lemma insert_customer (cid : string) (p1 p2 p3 p4 p5 : value) :
  sqlite_step beyond "INSERT INTO customers VALUES (?,?,?,?,?,?, DATE('now'))"
    [VText cid; p1; p2; p3; p4; p5] now db
  = if existsb (fun old => bool_decide (nth 0 old VNull = VText cid)) (Sqlite.trows t)
    then (Raised (IntegrityError "UNIQUE constraint failed: customers.customer_id"), db)
    else (Returned (Sqlite.change_cursor 1),
          <["customers" := Sqlite.with_rows t
              (Sqlite.trows t ++ [[VText cid; p1; p2; p3; p4; p5; Sqlite.sql_date now]])]> db).
Proof.
  destruct as_documented as (Hn & Hc & Hu).
  unfold sqlite_step, Sqlite.run.
  evaluate (Sqlite.prepare "INSERT INTO customers VALUES (?,?,?,?,?,?, DATE('now'))").
  unfold Sqlite.exec, Sqlite.exec_insert, Sqlite.find_table.
  evaluate (Text.lower "customers").
  rewrite table_there, Hn, Hc, Hu.
  match goal with |- context [Sqlite.resolve_values ?a ?b ?c] =>
    evaluate (Sqlite.resolve_values a b c) end.
  next_bind. unfold Sqlite.check_bindings.
  cbn [Sqlite.e_params Sqlite.e_today length map Sqlite.eval_scalar nth].
  rewrite bool_decide_eq_true_2 by reflexivity.
  next_bind. rewrite Z.add_0_r.
  unfold Sqlite.conflict. rewrite Hc.
  evaluate (Sqlite.col_index customers_columns "customer_id").
  cbn [nth customers_columns].
  rewrite (bool_decide_eq_false_2 (VText cid = VNull)) by discriminate.
  cbn [negb andb].
  destruct (existsb _ (Sqlite.trows t)); [|reflexivity].
  evaluate ("UNIQUE constraint failed: " +:+ "customers" +:+ "." +:+ "customer_id").
  reflexivity.
Qed.

(** The UPDATE of "Update": the city is set in the rows with the identifier,
    and the cursor counts them. *)
Lemma update_customer (cid city : string) :
  sqlite_step beyond "UPDATE customers SET city=? WHERE customer_id=?"
    [VText city; VText cid] now db
  = (Returned (Sqlite.change_cursor (length (filter (has_id cid) (Sqlite.trows t)))),
     <["customers" := Sqlite.with_rows t (map (set_city cid city) (Sqlite.trows t))]> db).
Proof.
  destruct as_documented as (Hn & Hc & Hu).
  unfold sqlite_step, Sqlite.run.
  evaluate (Sqlite.prepare "UPDATE customers SET city=? WHERE customer_id=?").
  unfold Sqlite.exec, Sqlite.exec_update, Sqlite.find_table.
  evaluate (Text.lower "customers").
  rewrite table_there, Hc, Hu.
  match goal with |- context [Sqlite.resolve_update ?a ?b ?c ?d ?e] =>
    evaluate (Sqlite.resolve_update a b c d e) end.
  next_bind. unfold Sqlite.check_bindings. cbn [Sqlite.e_params length].
  rewrite bool_decide_eq_true_2 by reflexivity.
  next_bind. rewrite (filter_keeps_id now _ 1 cid) by reflexivity.
  do 3 f_equal. apply map_ext. intros row.
  unfold Sqlite.updated, set_city. rewrite (keeps_id now _ 1 cid) by reflexivity.
  destruct (decide (has_id cid row)) as [H|H].
  - rewrite bool_decide_eq_true_2 by done. reflexivity.
  - rewrite bool_decide_eq_false_2 by done. reflexivity.
Qed.

(** The DELETE of "Delete": the rows with the identifier go, and the cursor
    counts them. *)
Lemma delete_customer (cid : string) :
  sqlite_step beyond "DELETE FROM customers WHERE customer_id=?" [VText cid] now db
  = (Returned (Sqlite.change_cursor (length (filter (has_id cid) (Sqlite.trows t)))),
     <["customers" := Sqlite.with_rows t
         (filter (fun row => ~ has_id cid row) (Sqlite.trows t))]> db).
Proof.
  destruct as_documented as (Hn & Hc & Hu).
  unfold sqlite_step, Sqlite.run.
  evaluate (Sqlite.prepare "DELETE FROM customers WHERE customer_id=?").
  unfold Sqlite.exec, Sqlite.exec_delete, Sqlite.find_table.
  evaluate (Text.lower "customers").
  rewrite table_there, Hc.
  match goal with |- context [Sqlite.resolve_where ?a ?b ?c] =>
    evaluate (Sqlite.resolve_where a b c) end.
  next_bind. unfold Sqlite.check_bindings. cbn [Sqlite.e_params length].
  rewrite bool_decide_eq_true_2 by reflexivity.
  next_bind. rewrite (filter_keeps_id now _ 0 cid) by reflexivity.
  do 3 f_equal. apply list_filter_iff. intros row.
  rewrite (keeps_id now _ 0 cid) by reflexivity.
  destruct (decide (has_id cid row)) as [H|H].
  - rewrite bool_decide_eq_true_2 by done. cbn. tauto.
  - rewrite bool_decide_eq_false_2 by done. cbn. tauto.
Qed.

(** The SELECT of "Read": every row, under the declared column names. *)
Lemma select_customers :
  sqlite_step beyond "SELECT * FROM customers" [] now db
  = (Returned (Sqlite.rows_cursor customers_columns (map seven (Sqlite.trows t))), db).
Proof.
  destruct as_documented as (Hn & Hc & Hu).
  unfold sqlite_step, Sqlite.run.
  evaluate (Sqlite.prepare "SELECT * FROM customers").
  unfold Sqlite.exec, Sqlite.sel_from, Sqlite.find_table.
  evaluate (Text.lower "customers").
  rewrite table_there.
  match goal with |- context [Sqlite.aggregate_query ?q] =>
    evaluate (Sqlite.aggregate_query q) end.
  unfold Sqlite.select_rows. rewrite Hc.
  match goal with |- context [Sqlite.resolve_plain ?a ?b] =>
    evaluate (Sqlite.resolve_plain a b) end.
  unfold mbind at 2, Sqlite.res_bind at 2.
  unfold Sqlite.check_bindings. cbn [Sqlite.e_params length].
  rewrite bool_decide_eq_true_2 by reflexivity.
  unfold mbind at 2, Sqlite.res_bind at 2.
  next_bind.
  unfold Sqlite.plain_rows. rewrite filter_keeps_all.
  cbn [Sqlite.sel_limit Sqlite.limit_rows Sqlite.order_rows fmap list_fmap fst].
  reflexivity.
Qed.

End Customers.

(** ** What the handlers do to [customers] *)

Lemma with_rows_documented (t : Sqlite.table) (rows : list (list value)) :
  documented_customers t -> documented_customers (Sqlite.with_rows t rows).
Proof. intros H. exact H. Qed.

Lemma with_rows_again (t : Sqlite.table) (rows rows' : list (list value)) :
  Sqlite.with_rows (Sqlite.with_rows t rows) rows' = Sqlite.with_rows t rows'.
Proof. reflexivity. Qed.

(** With a key that is unique, a customer that is there is there once. *)
Lemma one_with_unique_id (cid : string) (rows : list (list value)) :
  NoDup (customer_id <$> rows) -> filter (has_id cid) rows <> [] ->
  length (filter (has_id cid) rows) = 1%nat.
Proof.
  induction rows as [|r rows IH]; [done|].
  rewrite fmap_cons, NoDup_cons. intros [Hr Hrest] Hne.
  destruct (decide (has_id cid r)) as [H|H].
  - rewrite filter_cons_True by done. cbn. f_equal.
    destruct (filter (has_id cid) rows) as [|r' l] eqn:E; [done|].
    exfalso. apply Hr.
    assert (r' ∈ filter (has_id cid) rows) as Hin by (rewrite E; left).
    apply list_elem_of_filter in Hin as [Hid Hin].
    apply list_elem_of_fmap. exists r'. split; [|done].
    unfold has_id in *. congruence.
  - rewrite filter_cons_False in * by done. by apply IH.
Qed.

Lemma filter_seven_none (cid : string) (rows : list (list value)) :
  filter (has_id cid) rows = [] -> filter (has_id cid) (map seven rows) = [].
Proof.
  induction rows as [|r rows IH]; [done|]. cbn [map].
  destruct (decide (has_id cid r)) as [H|H].
  - rewrite filter_cons_True by done. discriminate.
  - rewrite !filter_cons_False by done. exact IH.
Qed.

(** Rows without the identifier are neither updated nor deleted. *)
Lemma none_with_id (cid city : string) (rows : list (list value)) :
  filter (has_id cid) rows = [] ->
  map (set_city cid city) rows = rows
  /\ filter (fun row => ~ has_id cid row) rows = rows.
Proof.
  induction rows as [|r rows IH]; [done|].
  destruct (decide (has_id cid r)) as [H|H].
  - rewrite filter_cons_True by done. discriminate.
  - rewrite filter_cons_False by done. intros Hnone.
    destruct (IH Hnone) as [Hm Hf]. split.
    + cbn [map]. rewrite Hm. unfold set_city. by rewrite decide_False.
    + rewrite filter_cons_True by done. by rewrite Hf.
Qed.

Lemma deleted_has_none (cid : string) (rows : list (list value)) :
  filter (has_id cid) (filter (fun row => ~ has_id cid row) rows) = [].
Proof.
  induction rows as [|r rows IH]; [done|].
  destruct (decide (has_id cid r)) as [H|H].
  - rewrite (filter_cons_False (fun row => ~ has_id cid row)) by tauto. exact IH.
  - rewrite (filter_cons_True (fun row => ~ has_id cid row)) by done.
    rewrite filter_cons_False by done. exact IH.
Qed.

Section Mutations.

Variable beyond :
  string -> list value -> Z -> Sqlite.database -> outcome Sqlite.cursor * Sqlite.database.

Variables (w : world) (t : Sqlite.table).
Hypothesis table_there : working w !! "customers" = Some t.
Hypothesis as_documented : documented_customers t.

(** "Create" with a free identifier: one more row, committed. *)
Lemma create_inserts (cid name gender : string) (age : Z) (city account_type : string) :
  filter (has_id cid) (Sqlite.trows t) = [] ->
  crud_create beyond cid name gender age city account_type true w
  = (Returned tt,
     showing [StSuccess "Customer added successfully!"]
       (changed (<["customers" := Sqlite.with_rows t
                    (Sqlite.trows t
                     ++ [new_customer cid name gender age city account_type (today w)])]>
                   (working w)) w)).
Proof.
  intros Hnew.
  rewrite crud_create_cases, (insert_customer beyond _ t _ table_there as_documented).
  apply existsb_has_id in Hnew. rewrite Hnew. reflexivity.
Qed.

(** "Create" with a taken identifier: the error is rendered, nothing else
    changes. *)
Lemma create_refused (cid name gender : string) (age : Z) (city account_type : string) :
  filter (has_id cid) (Sqlite.trows t) <> [] ->
  crud_create beyond cid name gender age city account_type true w
  = (Returned tt, showing [StError "UNIQUE constraint failed: customers.customer_id"] w).
Proof.
  intros Hold.
  rewrite crud_create_cases, (insert_customer beyond _ t _ table_there as_documented).
  destruct (existsb _ (Sqlite.trows t)) eqn:E.
  - destruct w; reflexivity.
  - apply existsb_has_id in E. contradiction.
Qed.

Lemma update_commits (cid city : string) :
  crud_update beyond cid city true w
  = (Returned tt,
     showing [StSuccess "Customer updated!"]
       (changed (<["customers" := Sqlite.with_rows t
                    (map (set_city cid city) (Sqlite.trows t))]> (working w)) w)).
Proof.
  by rewrite crud_update_cases, (update_customer beyond _ t _ table_there as_documented).
Qed.

Lemma delete_commits (cid : string) :
  crud_delete beyond cid true w
  = (Returned tt,
     showing [StSuccess "Customer deleted!"]
       (changed (<["customers" := Sqlite.with_rows t
                    (filter (fun row => ~ has_id cid row) (Sqlite.trows t))]> (working w)) w)).
Proof.
  by rewrite crud_delete_cases, (delete_customer beyond _ t _ table_there as_documented).
Qed.

(** The frame "Read" shows. *)
Lemma read_customers :
  run_query beyond "SELECT * FROM customers" None w
  = (Returned {| columns := customers_columns; rows := map seven (Sqlite.trows t) |}, w).
Proof.
  rewrite run_query_cases. cbn [default].
  rewrite (select_customers beyond _ t _ table_there as_documented).
  destruct w; reflexivity.
Qed.

End Mutations.

(** ** Update and Delete report no count *)

(** C3, as stated, fails: on a database with the one customer C1, the
    store counts one row for the first "Delete" of C1 and none for the
    second, and the two calls return and render the same. *)
Lemma delete_twice_reports_the_same :
  (sqlite_step grammar_only "DELETE FROM customers WHERE customer_id=?" [VText "C1"] 19723
     one_customer).1 = Returned (Sqlite.change_cursor 1)
  /\ (sqlite_step grammar_only "DELETE FROM customers WHERE customer_id=?" [VText "C1"] 19723
        (working (crud_delete grammar_only "C1" true (opened one_customer 19723)).2)).1
     = Returned (Sqlite.change_cursor 0)
  /\ (crud_delete grammar_only "C1" true (opened one_customer 19723)).1
     = (crud_delete grammar_only "C1" true
          (crud_delete grammar_only "C1" true (opened one_customer 19723)).2).1
  /\ rendered_since (opened one_customer 19723)
       (crud_delete grammar_only "C1" true (opened one_customer 19723)).2
     = rendered_since (crud_delete grammar_only "C1" true (opened one_customer 19723)).2
         (crud_delete grammar_only "C1" true
            (crud_delete grammar_only "C1" true (opened one_customer 19723)).2).2.
Proof.
  repeat split; vm_compute; reflexivity.
Qed.

(** C3, amended.  On a [customers] table as documented, "Update" and
    "Delete" return, commit and render their one success message whatever
    the number of rows with the identifier; the store's cursor holds that
    number, and the handlers drop it.  With no such row the table stays as it
    is, and a second "Delete" of the same identifier leaves what the first
    left. *)
Theorem update_and_delete_drop_the_row_count
    (beyond : string -> list value -> Z -> Sqlite.database
              -> outcome Sqlite.cursor * Sqlite.database)
    (cid city : string) (w : world) (t : Sqlite.table) :
  working w !! "customers" = Some t ->
  documented_customers t ->
  let n := length (filter (has_id cid) (Sqlite.trows t)) in
  let updated := <["customers" := Sqlite.with_rows t
                    (map (set_city cid city) (Sqlite.trows t))]> (working w) in
  let deleted := <["customers" := Sqlite.with_rows t
                    (filter (fun row => ~ has_id cid row) (Sqlite.trows t))]> (working w) in
  (sqlite_step beyond "UPDATE customers SET city=? WHERE customer_id=?"
     [VText city; VText cid] (today w) (working w)).1 = Returned (Sqlite.change_cursor n)
  /\ (sqlite_step beyond "DELETE FROM customers WHERE customer_id=?"
        [VText cid] (today w) (working w)).1 = Returned (Sqlite.change_cursor n)
  /\ crud_update beyond cid city true w
     = (Returned tt, showing [StSuccess "Customer updated!"] (changed updated w))
  /\ crud_delete beyond cid true w
     = (Returned tt, showing [StSuccess "Customer deleted!"] (changed deleted w))
  /\ (n = 0%nat -> updated = working w /\ deleted = working w)
  /\ crud_delete beyond cid true (showing [StSuccess "Customer deleted!"] (changed deleted w))
     = (Returned tt,
        showing [StSuccess "Customer deleted!"]
          (showing [StSuccess "Customer deleted!"] (changed deleted w))).
Proof.
  intros Hdb Hdoc n updated deleted.
  split; [by rewrite (update_customer beyond _ t _ Hdb Hdoc)|].
  split; [by rewrite (delete_customer beyond _ t _ Hdb Hdoc)|].
  split; [exact (update_commits beyond w t Hdb Hdoc cid city)|].
  split; [exact (delete_commits beyond w t Hdb Hdoc cid)|].
  split.
  - intros Hn. apply length_zero_iff_nil in Hn.
    destruct (none_with_id cid city _ Hn) as [Hm Hf].
    unfold updated, deleted. rewrite Hm, Hf.
    assert (Sqlite.with_rows t (Sqlite.trows t) = t) as -> by (by destruct t).
    split; by apply insert_id.
  - set (w1 := showing [StSuccess "Customer deleted!"] (changed deleted w)).
    assert (working w1 !! "customers"
            = Some (Sqlite.with_rows t (filter (fun row => ~ has_id cid row) (Sqlite.trows t))))
      as Hdb1 by apply lookup_insert_eq.
    rewrite (delete_commits beyond w1 _ Hdb1 (with_rows_documented _ _ Hdoc) cid).
    do 2 f_equal. unfold changed. cbn [working w1 showing changed today screen].
    rewrite with_rows_again. cbn [Sqlite.trows Sqlite.with_rows].
    destruct (none_with_id cid city _ (deleted_has_none cid (Sqlite.trows t))) as [_ ->].
    unfold deleted. by rewrite insert_insert_eq.
Qed.

Lemma update_and_delete_drop_the_row_count_at_ann :
  working (opened one_customer 19723) !! "customers" = Some (customers_table [ann])
  /\ documented_customers (customers_table [ann])
  /\ crud_update grammar_only "C1" "Goa" true (opened one_customer 19723)
     = (Returned tt,
        showing [StSuccess "Customer updated!"]
          (changed (<["customers" := Sqlite.with_rows (customers_table [ann])
                       (map (set_city "C1" "Goa") [ann])]> one_customer)
             (opened one_customer 19723))).
Proof.
  split; [reflexivity|]. split; [repeat split|].
  apply (update_and_delete_drop_the_row_count grammar_only "C1" "Goa"
           (opened one_customer 19723) (customers_table [ann])); [reflexivity | repeat split].
Defined.

(** ** Create *)

(** C4, as stated, fails: with every text field left empty, "Create" inserts
    the row (the age is the widget's lower bound) and reports success. *)
Lemma create_accepts_empty_fields :
  crud_create grammar_only "" "" "" 0 "" "" true (opened one_customer 19723)
  = (Returned tt,
     showing [StSuccess "Customer added successfully!"]
       (opened {[ "customers" :=
                    customers_table
                      [ann; [VText ""; VText ""; VText ""; VInt 1; VText ""; VText "";
                             VText "2024-01-01"]] ]}
               19723)).
Proof.
  vm_compute. reflexivity.
Qed.

Lemma number_input_bounds (lo hi entered : Z) :
  lo <= hi -> lo <= number_input lo hi entered <= hi.
Proof. unfold number_input. lia. Qed.

Lemma number_input_within (lo hi entered : Z) :
  lo <= entered <= hi -> number_input lo hi entered = entered.
Proof. unfold number_input. lia. Qed.

(** C4, amended.  "Create" checks nothing itself.  The age it submits is the
    widget's value, which lies in [1,120]; the identifier, name, gender, city
    and account type are submitted as entered, empty or not.  On a
    [customers] table as documented in which the identifier is free, the row
    is inserted and committed and success is rendered. *)
Theorem create_submits_the_fields_as_entered
    (beyond : string -> list value -> Z -> Sqlite.database
              -> outcome Sqlite.cursor * Sqlite.database)
    (cid name gender : string) (age_entered : Z) (city account_type : string)
    (w : world) (t : Sqlite.table) :
  working w !! "customers" = Some t ->
  documented_customers t ->
  filter (has_id cid) (Sqlite.trows t) = [] ->
  crud_create beyond cid name gender age_entered city account_type true w
  = (Returned tt,
     showing [StSuccess "Customer added successfully!"]
       (changed (<["customers" := Sqlite.with_rows t
                    (Sqlite.trows t
                     ++ [[VText cid; VText name; VText gender;
                          VInt (number_input 1 120 age_entered);
                          VText city; VText account_type; Sqlite.sql_date (today w)]])]>
                   (working w)) w))
  /\ 1 <= number_input 1 120 age_entered <= 120.
Proof.
  intros Hdb Hdoc Hfree. split.
  - exact (create_inserts beyond w t Hdb Hdoc cid name gender age_entered city account_type Hfree).
  - apply number_input_bounds. lia.
Qed.

Lemma create_submits_the_fields_as_entered_at_bob :
  working (opened one_customer 19723) !! "customers" = Some (customers_table [ann])
  /\ documented_customers (customers_table [ann])
  /\ filter (has_id "") [ann] = []
  /\ crud_create grammar_only "" "Bob" "" 500 "" "Current" true (opened one_customer 19723)
     = (Returned tt,
        showing [StSuccess "Customer added successfully!"]
          (changed (<["customers" := Sqlite.with_rows (customers_table [ann])
                       ([ann] ++ [[VText ""; VText "Bob"; VText ""; VInt (number_input 1 120 500);
                                   VText ""; VText "Current"; Sqlite.sql_date 19723]])]>
                      one_customer)
             (opened one_customer 19723))).
Proof.
  split; [reflexivity|]. split; [repeat split|]. split; [reflexivity|].
  apply (create_submits_the_fields_as_entered grammar_only "" "Bob" "" 500 "" "Current"
           (opened one_customer 19723) (customers_table [ann]));
    [reflexivity | repeat split | reflexivity].
Defined.

(** C5.  On a [customers] table as documented (primary key [customer_id])
    that has a row with the identifier, "Create" renders the store's
    uniqueness error and changes neither the connection's view nor the file:
    every row stays as it was, and where the key was unique the identifier
    still has exactly one row. *)
Theorem create_with_a_taken_id_changes_nothing
    (beyond : string -> list value -> Z -> Sqlite.database
              -> outcome Sqlite.cursor * Sqlite.database)
    (cid name gender : string) (age_entered : Z) (city account_type : string)
    (w : world) (t : Sqlite.table) :
  working w !! "customers" = Some t ->
  documented_customers t ->
  filter (has_id cid) (Sqlite.trows t) <> [] ->
  exists w',
    crud_create beyond cid name gender age_entered city account_type true w = (Returned tt, w')
    /\ w' = showing [StError "UNIQUE constraint failed: customers.customer_id"] w
    /\ committed w' = committed w
    /\ working w' = working w
    /\ (NoDup (customer_id <$> Sqlite.trows t) ->
        length (customers_with cid (working w')) = 1%nat).
Proof.
  intros Hdb Hdoc Htaken.
  exists (showing [StError "UNIQUE constraint failed: customers.customer_id"] w).
  split.
  - exact (create_refused beyond w t Hdb Hdoc cid name gender age_entered city account_type Htaken).
  - repeat split. intros Hkey.
    unfold customers_with. cbn [working showing]. rewrite Hdb.
    by apply one_with_unique_id.
Qed.

Lemma create_with_a_taken_id_changes_nothing_at_ann :
  working (opened one_customer 19723) !! "customers" = Some (customers_table [ann])
  /\ documented_customers (customers_table [ann])
  /\ filter (has_id "C1") [ann] <> []
  /\ exists w',
       crud_create grammar_only "C1" "Bob" "M" 40 "Delhi" "Current" true
         (opened one_customer 19723) = (Returned tt, w')
       /\ w' = showing [StError "UNIQUE constraint failed: customers.customer_id"]
                 (opened one_customer 19723)
       /\ committed w' = one_customer
       /\ working w' = one_customer
       /\ (NoDup (customer_id <$> [ann]) ->
           length (customers_with "C1" (working w')) = 1%nat).
Proof.
  split; [reflexivity|]. split; [repeat split|]. split; [discriminate|].
  apply (create_with_a_taken_id_changes_nothing grammar_only "C1" "Bob" "M" 40 "Delhi" "Current"
           (opened one_customer 19723) (customers_table [ann]));
    [reflexivity | repeat split | discriminate].
Defined.

(** C6.  After a "Create" that succeeds (table as documented, identifier
    free, age from the widget's range), reading [customers] back gives, for
    that identifier, exactly one row: the fields as entered, and as join date
    the day SQLite read from its clock when it executed the insert.  No input
    of "Create" reaches the date.  "Read" renders that frame. *)
Theorem created_customer_is_read_back
    (beyond : string -> list value -> Z -> Sqlite.database
              -> outcome Sqlite.cursor * Sqlite.database)
    (cid name gender : string) (age : Z) (city account_type : string)
    (w : world) (t : Sqlite.table) :
  working w !! "customers" = Some t ->
  documented_customers t ->
  filter (has_id cid) (Sqlite.trows t) = [] ->
  1 <= age <= 120 ->
  Calendar.in_range (today w) = true ->
  let w' := (crud_create beyond cid name gender age city account_type true w).2 in
  exists df,
    run_query beyond "SELECT * FROM customers" None w' = (Returned df, w')
    /\ crud_read beyond w' = (Returned tt, showing [StDataframe df] w')
    /\ columns df = customers_columns
    /\ filter (has_id cid) (rows df)
       = [[VText cid; VText name; VText gender; VInt age; VText city; VText account_type;
           VText (Calendar.iso (Calendar.civil_of_days (today w)))]].
Proof.
  intros Hdb Hdoc Hfree Hage Hday w'.
  unfold w'.
  rewrite (create_inserts beyond w t Hdb Hdoc cid name gender age city account_type Hfree).
  cbn [snd].
  set (t1 := Sqlite.with_rows t _).
  set (w1 := showing _ _).
  assert (working w1 !! "customers" = Some t1) as Hdb1 by apply lookup_insert_eq.
  assert (documented_customers t1) as Hdoc1 by exact Hdoc.
  exists {| columns := customers_columns; rows := map seven (Sqlite.trows t1) |}.
  pose proof (read_customers beyond w1 t1 Hdb1 Hdoc1) as Hread.
  split; [exact Hread|].
  split; [unfold crud_read; unfold mbind, M_bind; by rewrite Hread|].
  split; [reflexivity|].
  cbn [rows]. unfold t1. cbn [Sqlite.trows Sqlite.with_rows].
  rewrite map_app, filter_app, (filter_seven_none _ _ Hfree). cbn [map app].
  unfold new_customer, Sqlite.sql_date. rewrite Hday, (number_input_within 1 120 age Hage).
  by rewrite filter_cons_True.
Qed.

Lemma created_customer_is_read_back_at_bob :
  working (opened one_customer 19723) !! "customers" = Some (customers_table [ann])
  /\ documented_customers (customers_table [ann])
  /\ filter (has_id "C2") [ann] = []
  /\ 1 <= 40 <= 120
  /\ Calendar.in_range 19723 = true
  /\ exists df,
       run_query grammar_only "SELECT * FROM customers" None
         (crud_create grammar_only "C2" "Bob" "M" 40 "Delhi" "Current" true
            (opened one_customer 19723)).2
       = (Returned df,
          (crud_create grammar_only "C2" "Bob" "M" 40 "Delhi" "Current" true
             (opened one_customer 19723)).2)
       /\ crud_read grammar_only
            (crud_create grammar_only "C2" "Bob" "M" 40 "Delhi" "Current" true
               (opened one_customer 19723)).2
          = (Returned tt,
             showing [StDataframe df]
               (crud_create grammar_only "C2" "Bob" "M" 40 "Delhi" "Current" true
                  (opened one_customer 19723)).2)
       /\ columns df = customers_columns
       /\ filter (has_id "C2") (rows df)
          = [[VText "C2"; VText "Bob"; VText "M"; VInt 40; VText "Delhi"; VText "Current";
              VText (Calendar.iso (Calendar.civil_of_days 19723))]].
Proof.
  split; [reflexivity|]. split; [repeat split|]. split; [reflexivity|].
  split; [lia|]. split; [reflexivity|].
  apply (created_customer_is_read_back grammar_only "C2" "Bob" "M" 40 "Delhi" "Current"
           (opened one_customer 19723) (customers_table [ann]));
    [reflexivity | repeat split | reflexivity | lia | reflexivity].
Defined.

(** ** Running catalog entries *)

Section CatalogRuns.

Variable beyond :
  string -> list value -> Z -> Sqlite.database -> outcome Sqlite.cursor * Sqlite.database.

(** The button "Run Query": a label that is no key raises [KeyError];
    otherwise the frame [run_query] returns is rendered. *)
Lemma run_selected_cases (selected : string) (w : world) :
  run_selected beyond selected true w =
  match getitem queries selected with
  | Returned sql =>
      match run_query beyond sql None w with
      | (Returned df, w') => (Returned tt, showing [StDataframe df] w')
      | (Raised e, w') => (Raised e, w')
      end
  | Raised e => (Raised e, w)
  end.
Proof.
  unfold run_selected, mbind, M_bind, lift.
  destruct (getitem queries selected) as [sql|e]; [|reflexivity].
  destruct (run_query beyond sql None w) as [[df|e] w']; reflexivity.
Qed.

Variables (db : Sqlite.database) (now : Z).
Variables (i1 c1 s1 t1 i2 c2 s2 t2 i3 c3 s3 t3 : value).

(** Entry 5 on the example: grouped, summed, largest total first. *)
Lemma volume_by_type_step :
  sqlite_step beyond "SELECT txn_type, SUM(amount) AS total_transaction_volume
               FROM transactions
               GROUP BY txn_type
               ORDER BY total_transaction_volume DESC;" [] now
    (<["transactions" := transactions_table
         (example_transactions i1 c1 s1 t1 i2 c2 s2 t2 i3 c3 s3 t3)]> db)
  = (Returned (Sqlite.rows_cursor ["txn_type"; "total_transaction_volume"]
       [[VText "deposit"; VInt 150]; [VText "withdrawal"; VInt 30]]),
     <["transactions" := transactions_table
         (example_transactions i1 c1 s1 t1 i2 c2 s2 t2 i3 c3 s3 t3)]> db).
Proof.
  unfold sqlite_step, Sqlite.run.
  match goal with |- context [Sqlite.prepare ?s] => evaluate (Sqlite.prepare s) end.
  unfold Sqlite.exec, Sqlite.sel_from, Sqlite.find_table.
  evaluate (Text.lower "transactions").
  rewrite lookup_insert_eq.
  match goal with |- context [Sqlite.aggregate_query ?q] =>
    evaluate (Sqlite.aggregate_query q) end.
  match goal with |- context [Sqlite.select_groups ?t ?e ?n ?q] =>
    evaluate (Sqlite.select_groups t e n q) end.
  reflexivity.
Qed.

(** Entry 20 on the example: grouped and summed, in the order of the groups. *)
Lemma volume_by_type_20_step :
  sqlite_step beyond "SELECT txn_type, SUM(amount) AS total_volume
            FROM transactions
            GROUP BY txn_type;" [] now
    (<["transactions" := transactions_table
         (example_transactions i1 c1 s1 t1 i2 c2 s2 t2 i3 c3 s3 t3)]> db)
  = (Returned (Sqlite.rows_cursor ["txn_type"; "total_volume"]
       [[VText "deposit"; VInt 150]; [VText "withdrawal"; VInt 30]]),
     <["transactions" := transactions_table
         (example_transactions i1 c1 s1 t1 i2 c2 s2 t2 i3 c3 s3 t3)]> db).
Proof.
  unfold sqlite_step, Sqlite.run.
  match goal with |- context [Sqlite.prepare ?s] => evaluate (Sqlite.prepare s) end.
  unfold Sqlite.exec, Sqlite.sel_from, Sqlite.find_table.
  evaluate (Text.lower "transactions").
  rewrite lookup_insert_eq.
  match goal with |- context [Sqlite.aggregate_query ?q] =>
    evaluate (Sqlite.aggregate_query q) end.
  match goal with |- context [Sqlite.select_groups ?t ?e ?n ?q] =>
    evaluate (Sqlite.select_groups t e n q) end.
  reflexivity.
Qed.

End CatalogRuns.

(** C7, as stated, fails: on the example neither entry 5 nor entry 20
    renders a frame whose second column is named [total]. *)
Lemma volume_column_is_not_named_total :
  run_selected grammar_only volume_by_type true (opened example_store 19723)
    <> (Returned tt, showing [StDataframe expected_volume] (opened example_store 19723))
  /\ run_selected grammar_only volume_by_type_20 true (opened example_store 19723)
    <> (Returned tt, showing [StDataframe expected_volume] (opened example_store 19723)).
Proof.
  split; intros H; apply (f_equal (fun r => screen r.2)) in H;
    vm_compute in H; discriminate H.
Qed.

(** C7, amended.  On a database whose [transactions] are the three of the
    example (whatever their other columns, whatever the other tables),
    entry 5 renders the columns [txn_type] and [total_transaction_volume]
    with the rows (deposit, 150) and (withdrawal, 30), largest total first;
    entry 20 renders the same rows under [txn_type] and [total_volume]. *)
Theorem volume_by_type_on_the_example
    (beyond : string -> list value -> Z -> Sqlite.database
              -> outcome Sqlite.cursor * Sqlite.database)
    (db : Sqlite.database) (now : Z)
    (i1 c1 s1 t1 i2 c2 s2 t2 i3 c3 s3 t3 : value) :
  let store := <["transactions" := transactions_table
                  (example_transactions i1 c1 s1 t1 i2 c2 s2 t2 i3 c3 s3 t3)]> db in
  run_selected beyond volume_by_type true (opened store now)
  = (Returned tt,
     showing [StDataframe
                {| columns := ["txn_type"; "total_transaction_volume"];
                   rows := [[VText "deposit"; VInt 150]; [VText "withdrawal"; VInt 30]] |}]
       (opened store now))
  /\ run_selected beyond volume_by_type_20 true (opened store now)
  = (Returned tt,
     showing [StDataframe
                {| columns := ["txn_type"; "total_volume"];
                   rows := [[VText "deposit"; VInt 150]; [VText "withdrawal"; VInt 30]] |}]
       (opened store now)).
Proof.
  intros store. split.
  - rewrite run_selected_cases.
    evaluate (getitem queries volume_by_type).
    rewrite run_query_cases. cbn [default opened today working].
    unfold store. rewrite volume_by_type_step. reflexivity.
  - rewrite run_selected_cases.
    evaluate (getitem queries volume_by_type_20).
    rewrite run_query_cases. cbn [default opened today working].
    unfold store. rewrite volume_by_type_20_step. reflexivity.
Qed.

(** ** Reading twice *)

Lemma dict_get_member (d : dict) (k v : string) :
  dict_get d k = Some v -> (k, v) ∈ d.
Proof.
  induction d as [|[k' v'] d IH]; cbn; [discriminate|].
  destruct (String.eqb_spec k' k) as [->|Hne].
  - intros [= ->]. left.
  - intros H. right. by apply IH.
Qed.

(** Every statement of the catalog reads only. *)
Lemma queries_select : Forall (fun kv : string * string => selects kv.2 = true) queries.
Proof.
  rewrite queries_as_written. refine (bool_decide_unpack _ _). vm_compute. exact I.
Qed.

Lemma rendered_since_showing (es : list element) (w : world) :
  rendered_since w (showing es w) = es.
Proof.
  unfold rendered_since, showing. cbn [screen]. by rewrite drop_app_length.
Qed.

Lemma showing_twice (es es' : list element) (w : world) :
  showing es' (showing es w) = showing (es ++ es') w.
Proof. unfold showing. cbn [screen committed working today]. by rewrite app_assoc. Qed.

Lemma rendered_since_more (es es' : list element) (w : world) :
  rendered_since (showing es w) (showing (es ++ es') w) = es'.
Proof. by rewrite <- showing_twice, rendered_since_showing. Qed.

Section Reading.

Variable beyond :
  string -> list value -> Z -> Sqlite.database -> outcome Sqlite.cursor * Sqlite.database.

(** A statement that reads leaves the database as it is. *)
Lemma select_keeps_db (sql : string) (params : list value) (now : Z) (db : Sqlite.database) :
  selects sql = true -> (sqlite_step beyond sql params now db).2 = db.
Proof.
  unfold selects, sqlite_step, Sqlite.run.
  intros [Hreads Hstmt]%andb_prop. rewrite Hreads.
  destruct (Sqlite.prepare sql) as [[[q|tbl vals|tbl col e w|tbl w] n]|];
    try discriminate; [|reflexivity].
  unfold Sqlite.exec.
  destruct (Sqlite.find_table db (Sqlite.sel_from q)) as [t|]; [|reflexivity].
  unfold mbind, Sqlite.res_bind.
  destruct (if Sqlite.aggregate_query q then _ else _); reflexivity.
Qed.

(** With no transaction open, [run_query] on a statement that reads returns
    a frame and renders messages that depend on the day and the database
    only, and leaves both as they are. *)
Lemma run_query_reads (sql : string) (db : Sqlite.database) (now : Z) :
  selects sql = true ->
  exists df es, forall w,
    committed w = db -> working w = db -> today w = now ->
    run_query beyond sql None w = (Returned df, showing es w).
Proof.
  intros Hsel.
  pose proof (select_keeps_db sql [] now db Hsel) as Hdb.
  destruct (sqlite_step beyond sql [] now db) as [[cur|exc] db'] eqn:Hstep;
    cbn [snd] in Hdb; subst db'.
  - destruct (Sqlite.description cur) as [names|] eqn:Hdesc.
    + exists {| columns := names; rows := Sqlite.fetchall cur |}, [].
      intros [c wk d sc] Hc Hw Hd. cbn in Hc, Hw, Hd. subst.
      rewrite run_query_cases. cbn [default today working]. rewrite Hstep.
      cbv zeta. rewrite Hdesc. unfold showing. cbn [screen committed working today].
      by rewrite app_nil_r.
    + exists empty_DataFrame, [StError "SQL Error: 'NoneType' object is not iterable"].
      intros [c wk d sc] Hc Hw Hd. cbn in Hc, Hw, Hd. subst.
      rewrite run_query_cases. cbn [default today working]. rewrite Hstep.
      cbv zeta. by rewrite Hdesc.
  - exists empty_DataFrame,
      [StError ("SQL Error: Execution failed on sql '" +:+ sql +:+ "': " +:+ str exc)].
    intros [c wk d sc] Hc Hw Hd. cbn in Hc, Hw, Hd. subst.
    rewrite run_query_cases. cbn [default today working]. by rewrite Hstep.
Qed.

End Reading.

(** C9, as stated, fails: entry 22 compares with [DATE('now', '-30 days')].
    On a database with one account last updated on 2024-01-01 it renders no
    row on 2024-01-15 and, the database unchanged, one row on 2024-03-01. *)
Lemma stale_accounts_depends_on_the_day :
  committed (stale_run (opened one_account 19737)).2 = one_account
  /\ working (stale_run (opened one_account 19737)).2 = one_account
  /\ rendered_since (opened one_account 19737) (stale_run (opened one_account 19737)).2
     = [StDataframe
          {| columns := ["account_id"; "customer_id"; "account_balance"; "last_updated"];
             rows := [] |}]
  /\ rendered_since (on_day 19783 (stale_run (opened one_account 19737)).2)
       (stale_run (on_day 19783 (stale_run (opened one_account 19737)).2)).2
     = [StDataframe
          {| columns := ["account_id"; "customer_id"; "account_balance"; "last_updated"];
             rows := [[VInt 1; VText "C1"; VInt 500; VText "2024-01-01"]] |}].
Proof.
  repeat split; vm_compute; reflexivity.
Qed.

(** C9, amended.  Started on any database, on any day, the button "Run
    Query" pressed twice for the same selection while the day of SQLite's
    clock stays the same ends the same way and renders the same both times,
    and leaves the database as it was. *)
Theorem catalog_run_repeats_within_a_day
    (beyond : string -> list value -> Z -> Sqlite.database
              -> outcome Sqlite.cursor * Sqlite.database)
    (selected : string) (db : Sqlite.database) (now : Z) :
  let first := run_selected beyond selected true (opened db now) in
  let second := run_selected beyond selected true first.2 in
  second.1 = first.1
  /\ rendered_since first.2 second.2 = rendered_since (opened db now) first.2
  /\ committed first.2 = db /\ working first.2 = db /\ today first.2 = now
  /\ committed second.2 = db /\ working second.2 = db.
Proof.
  intros first second. unfold second, first. clear first second.
  rewrite !run_selected_cases.
  destruct (getitem queries selected) as [sql|e] eqn:Hget.
  - assert (selects sql = true) as Hsel.
    { unfold getitem in Hget. destruct (dict_get queries selected) as [v|] eqn:Hv;
        [|discriminate]. injection Hget as ->.
      pose proof queries_select as Hall. rewrite Forall_forall in Hall.
      exact (Hall _ (dict_get_member _ _ _ Hv)). }
    destruct (run_query_reads beyond sql db now Hsel) as (df & es & Hrun).
    rewrite (Hrun (opened db now)) by reflexivity. cbn [snd fst].
    rewrite (Hrun (showing [StDataframe df] (showing es (opened db now)))) by reflexivity.
    cbn [snd fst]. rewrite !showing_twice, rendered_since_more, rendered_since_showing.
    repeat split.
  - cbn [fst snd]. repeat split.
Qed.

(** ** Entry 21 *)

(** C10.  On a database with exactly the seven documented tables, entry 21
    takes the error path of [run_query] whatever the tables hold: SQLite
    finds no table [tickets], the message is rendered and the frame shown has
    no column and no row. *)
Theorem critical_agents_entry_always_fails
    (beyond : string -> list value -> Z -> Sqlite.database
              -> outcome Sqlite.cursor * Sqlite.database)
    (w : world) :
  dom (working w) = (list_to_set tables : gset string) ->
  exists sql,
    getitem queries critical_agents = Returned sql
    /\ run_selected beyond critical_agents true w
       = (Returned tt,
          showing [StError ("SQL Error: Execution failed on sql '" +:+ sql
                            +:+ "': no such table: tickets");
                   StDataframe empty_DataFrame]
            {| committed := committed w; working := committed w; today := today w;
               screen := screen w |}).
Proof.
  intros Hdom.
  assert (working w !! "tickets" = None) as Hnone.
  { apply not_elem_of_dom. rewrite Hdom.
    refine (bool_decide_unpack _ _). vm_compute. exact I. }
  rewrite run_selected_cases.
  match goal with |- context [getitem queries critical_agents] =>
    evaluate (getitem queries critical_agents) end.
  eexists. split; [reflexivity|].
  rewrite run_query_cases. cbn [default].
  match goal with |- context [sqlite_step beyond ?s [] ?d ?b] =>
    assert (sqlite_step beyond s [] d b
            = (Raised (OperationalError "no such table: tickets"), b)) as ->
  end.
  { unfold sqlite_step, Sqlite.run.
    match goal with |- context [Sqlite.prepare ?s] => evaluate (Sqlite.prepare s) end.
    unfold Sqlite.exec, Sqlite.sel_from, Sqlite.find_table.
    evaluate (Text.lower "tickets"). rewrite Hnone.
    evaluate (Sqlite.no_such_table "tickets"). reflexivity. }
  unfold showing. cbn [screen str committed working today].
  rewrite <- app_assoc. reflexivity.
Qed.

Lemma critical_agents_entry_always_fails_on_seven_tables :
  dom (working (opened seven_tables 19723)) = (list_to_set tables : gset string)
  /\ exists sql,
       getitem queries critical_agents = Returned sql
       /\ run_selected grammar_only critical_agents true (opened seven_tables 19723)
          = (Returned tt,
             showing [StError ("SQL Error: Execution failed on sql '" +:+ sql
                               +:+ "': no such table: tickets");
                      StDataframe empty_DataFrame]
               (opened seven_tables 19723)).
Proof.
  split; [vm_compute; reflexivity|].
  apply (critical_agents_entry_always_fails grammar_only (opened seven_tables 19723)).
  vm_compute. reflexivity.
Defined.

(** * More of the script *)

(** ** The handlers, composed *)

Lemma with_rows_same (t : Sqlite.table) : Sqlite.with_rows t (Sqlite.trows t) = t.
Proof. by destruct t. Qed.

Lemma set_city_keeps_id (cid cid' city : string) (row : list value) :
  has_id cid' (set_city cid city row) <-> has_id cid' row.
Proof.
  unfold set_city. destruct (decide (has_id cid row)); [|done].
  unfold has_id, customer_id. destruct row as [|v row]; [done|]. reflexivity.
Qed.

Lemma set_city_id (cid city : string) (row : list value) :
  customer_id (set_city cid city row) = customer_id row.
Proof.
  unfold set_city. destruct (decide (has_id cid row)); [|done].
  unfold customer_id. destruct row as [|v row]; reflexivity.
Qed.

Lemma seven_wide (row : list value) : length row = 7%nat -> seven row = row.
Proof.
  intros H. do 8 (destruct row as [|? row]; try discriminate H). reflexivity.
Qed.


Section Handlers.

Variable beyond :
  string -> list value -> Z -> Sqlite.database -> outcome Sqlite.cursor * Sqlite.database.

(** X1.  "Create" with a free identifier and then "Delete" of that
    identifier give back the table as it was: the row was appended, the
    delete removes it and no other, and the database is committed in its
    first state; both handlers render their success. *)
Theorem create_then_delete_restores
    (cid name gender : string) (age : Z) (city account_type : string)
    (w : world) (t : Sqlite.table) :
  working w !! "customers" = Some t ->
  documented_customers t ->
  filter (has_id cid) (Sqlite.trows t) = [] ->
  let w1 := (crud_create beyond cid name gender age city account_type true w).2 in
  let w2 := (crud_delete beyond cid true w1).2 in
  customers_rows (working w1)
    = (Sqlite.trows t ++ [new_customer cid name gender age city account_type (today w)])%list
  /\ working w2 = working w
  /\ committed w2 = working w
  /\ rendered_since w w2
     = [StSuccess "Customer added successfully!"; StSuccess "Customer deleted!"].
Proof.
  intros Hdb Hdoc Hfree w1 w2. unfold w2, w1. clear w1 w2.
  rewrite (create_inserts beyond w t Hdb Hdoc cid name gender age city account_type Hfree).
  cbn [snd].
  set (row := new_customer _ _ _ _ _ _ _).
  set (t1 := Sqlite.with_rows t (Sqlite.trows t ++ [row])).
  set (w1 := showing _ _).
  assert (working w1 !! "customers" = Some t1) as Hdb1 by apply lookup_insert_eq.
  split; [unfold customers_rows; by rewrite Hdb1|].
  rewrite (delete_commits beyond w1 t1 Hdb1 (with_rows_documented t _ Hdoc) cid).
  cbn [snd].
  assert (filter (fun r => ~ has_id cid r) (Sqlite.trows t1) = Sqlite.trows t) as Hback.
  { unfold t1. cbn [Sqlite.trows Sqlite.with_rows]. rewrite filter_app.
    destruct (none_with_id cid city _ Hfree) as [_ ->].
    rewrite filter_cons_False; [by rewrite app_nil_r|].
    intros Hno. apply Hno. reflexivity. }
  rewrite Hback. unfold t1. rewrite with_rows_again, with_rows_same.
  unfold w1, rendered_since, showing, changed. cbn [committed working today screen].
  rewrite insert_insert_eq, (insert_id _ _ _ Hdb), <- app_assoc, drop_app_length.
  repeat split.
Qed.

Lemma set_city_wide (cid city : string) (row : list value) :
  length row = 7%nat ->
  set_city cid city row = if decide (has_id cid row) then with_city city row else row.
Proof.
  intros H. unfold set_city. destruct (decide (has_id cid row)); [|reflexivity].
  do 8 (destruct row as [|? row]; try discriminate H). reflexivity.
Qed.

Lemma set_city_length (cid city : string) (row : list value) :
  length (set_city cid city row) = length row.
Proof.
  unfold set_city. destruct (decide (has_id cid row)); [|reflexivity].
  apply length_insert.
Qed.

(** X2.  After "Update", "Read" gives the rows of the table in their order:
    the rows with the identifier carry the new city and every other field as
    before, the other rows are as they were. *)
Theorem updated_city_is_read_back (cid city : string) (w : world) (t : Sqlite.table) :
  working w !! "customers" = Some t ->
  documented_customers t ->
  well_formed t ->
  let w1 := (crud_update beyond cid city true w).2 in
  exists df,
    run_query beyond "SELECT * FROM customers" None w1 = (Returned df, w1)
    /\ columns df = customers_columns
    /\ rows df = map (fun row => if decide (has_id cid row) then with_city city row else row)
                     (Sqlite.trows t).
Proof.
  intros Hdb Hdoc Hwf w1. unfold w1. clear w1.
  rewrite (update_commits beyond w t Hdb Hdoc cid city). cbn [snd].
  set (t1 := Sqlite.with_rows t _). set (w1 := showing _ _).
  assert (working w1 !! "customers" = Some t1) as Hdb1 by apply lookup_insert_eq.
  exists {| columns := customers_columns; rows := map seven (Sqlite.trows t1) |}.
  split; [exact (read_customers beyond w1 t1 Hdb1 (with_rows_documented t _ Hdoc))|].
  split; [reflexivity|].
  cbn [rows]. unfold t1. cbn [Sqlite.trows Sqlite.with_rows].
  rewrite map_map. apply map_ext_Forall.
  eapply Forall_impl; [exact Hwf|]. intros row Hrow.
  destruct Hdoc as (_ & Hc & _). rewrite Hc in Hrow. cbn in Hrow.
  rewrite seven_wide by (by rewrite set_city_length).
  by apply set_city_wide.
Qed.

Lemma set_city_again (cid a b : string) (row : list value) :
  set_city cid b (set_city cid a row) = set_city cid b row.
Proof.
  unfold set_city at 2. destruct (decide (has_id cid row)) as [H|H].
  - unfold set_city. rewrite decide_True.
    + rewrite decide_True by done. apply list_insert_insert_eq.
    + unfold has_id, customer_id in *. destruct row; [done|]. exact H.
  - reflexivity.
Qed.

(** X3.  Two "Update"s of one identifier leave what the second alone
    leaves; in particular the same "Update" twice is the same as once. *)
Theorem last_update_wins (cid a b : string) (w : world) (t : Sqlite.table) :
  working w !! "customers" = Some t ->
  documented_customers t ->
  let w1 := (crud_update beyond cid a true w).2 in
  working (crud_update beyond cid b true w1).2 = working (crud_update beyond cid b true w).2
  /\ committed (crud_update beyond cid b true w1).2 = working (crud_update beyond cid b true w).2.
Proof.
  intros Hdb Hdoc w1. unfold w1. clear w1.
  rewrite (update_commits beyond w t Hdb Hdoc cid a),
          (update_commits beyond w t Hdb Hdoc cid b). cbn [snd].
  set (t1 := Sqlite.with_rows t _). set (w1 := showing _ (changed _ w)).
  assert (working w1 !! "customers" = Some t1) as Hdb1 by apply lookup_insert_eq.
  rewrite (update_commits beyond w1 t1 Hdb1 (with_rows_documented t _ Hdoc) cid b).
  unfold w1, t1, showing, changed. cbn [snd committed working Sqlite.trows Sqlite.with_rows].
  rewrite insert_insert_eq, map_map.
  rewrite (map_ext _ (set_city cid b) (set_city_again cid a b)).
  split; reflexivity.
Qed.

(** X4.  "Create", "Update" and "Delete" change no table but [customers]:
    the accounts, transactions and loans of a deleted customer stay (nothing
    cascades). *)
Theorem mutations_touch_only_customers
    (cid name gender : string) (age : Z) (city account_type : string)
    (w : world) (t : Sqlite.table) (other : string) :
  working w !! "customers" = Some t ->
  documented_customers t ->
  other <> "customers" ->
  working (crud_create beyond cid name gender age city account_type true w).2 !! other
    = working w !! other
  /\ working (crud_update beyond cid city true w).2 !! other = working w !! other
  /\ working (crud_delete beyond cid true w).2 !! other = working w !! other.
Proof.
  intros Hdb Hdoc Hother.
  rewrite (update_commits beyond w t Hdb Hdoc), (delete_commits beyond w t Hdb Hdoc).
  cbn [snd working showing changed].
  rewrite !lookup_insert_ne by done.
  split; [|done].
  destruct (decide (filter (has_id cid) (Sqlite.trows t) = [])) as [Hfree|Htaken].
  - rewrite (create_inserts beyond w t Hdb Hdoc _ _ _ _ _ _ Hfree).
    cbn [snd working showing changed]. by rewrite lookup_insert_ne.
  - by rewrite (create_refused beyond w t Hdb Hdoc _ _ _ _ _ _ Htaken).
Qed.

Lemma ids_after_update (cid city : string) (rows : list (list value)) :
  customer_id <$> map (set_city cid city) rows = customer_id <$> rows.
Proof.
  rewrite <- list_fmap_compose. apply list_fmap_ext. intros i row _. apply set_city_id.
Qed.

(** X5.  The three handlers keep the identifiers of [customers] pairwise
    distinct. *)
Theorem handlers_keep_the_key_unique
    (cid name gender : string) (age : Z) (city account_type : string)
    (w : world) (t : Sqlite.table) :
  working w !! "customers" = Some t ->
  documented_customers t ->
  NoDup (customer_id <$> Sqlite.trows t) ->
  NoDup (customer_id <$> customers_rows
           (working (crud_create beyond cid name gender age city account_type true w).2))
  /\ NoDup (customer_id <$> customers_rows (working (crud_update beyond cid city true w).2))
  /\ NoDup (customer_id <$> customers_rows (working (crud_delete beyond cid true w).2)).
Proof.
  intros Hdb Hdoc Hkey.
  rewrite (update_commits beyond w t Hdb Hdoc), (delete_commits beyond w t Hdb Hdoc).
  cbn [snd working showing changed]. unfold customers_rows.
  rewrite !lookup_insert_eq. cbn [Sqlite.trows Sqlite.with_rows].
  split; [|split].
  - destruct (decide (filter (has_id cid) (Sqlite.trows t) = [])) as [Hfree|Htaken].
    + rewrite (create_inserts beyond w t Hdb Hdoc _ _ _ _ _ _ Hfree).
      cbn [snd working showing changed]. rewrite lookup_insert_eq.
      cbn [Sqlite.trows Sqlite.with_rows].
      rewrite fmap_app. apply NoDup_app. split; [exact Hkey|].
      split; [|apply NoDup_singleton].
      intros v Hold Hnew. cbn in Hnew. apply list_elem_of_singleton in Hnew. subst v.
      apply list_elem_of_fmap in Hold as (row & Hid & Hin).
      assert (row ∈ filter (has_id cid) (Sqlite.trows t)) as Hrow.
      { apply list_elem_of_filter. split; [|exact Hin]. unfold has_id. by rewrite <- Hid. }
      rewrite Hfree in Hrow. inversion Hrow.
    + rewrite (create_refused beyond w t Hdb Hdoc _ _ _ _ _ _ Htaken).
      cbn [snd working showing]. by rewrite Hdb.
  - by rewrite ids_after_update.
  - eapply sublist_NoDup; [exact Hkey|]. apply fmap_sublist, sublist_filter.
Qed.

(** X6.  After "Delete", "Read" gives no row with the identifier, and
    every other row of the table, in the order they had. *)
Theorem deleted_customer_is_gone (cid : string) (w : world) (t : Sqlite.table) :
  working w !! "customers" = Some t ->
  documented_customers t ->
  well_formed t ->
  let w1 := (crud_delete beyond cid true w).2 in
  exists df,
    run_query beyond "SELECT * FROM customers" None w1 = (Returned df, w1)
    /\ rows df = filter (fun row => ~ has_id cid row) (Sqlite.trows t)
    /\ filter (has_id cid) (rows df) = []
    /\ (forall row, row ∈ Sqlite.trows t -> ~ has_id cid row -> row ∈ rows df).
Proof.
  intros Hdb Hdoc Hwf w1. unfold w1. clear w1.
  rewrite (delete_commits beyond w t Hdb Hdoc cid). cbn [snd].
  set (t1 := Sqlite.with_rows t _). set (w1 := showing _ _).
  assert (working w1 !! "customers" = Some t1) as Hdb1 by apply lookup_insert_eq.
  exists {| columns := customers_columns; rows := map seven (Sqlite.trows t1) |}.
  split; [exact (read_customers beyond w1 t1 Hdb1 (with_rows_documented t _ Hdoc))|].
  cbn [rows]. unfold t1. cbn [Sqlite.trows Sqlite.with_rows].
  assert (map seven (filter (fun row => ~ has_id cid row) (Sqlite.trows t))
          = filter (fun row => ~ has_id cid row) (Sqlite.trows t)) as ->.
  { rewrite <- (map_id (filter _ _)) at 2. apply map_ext_Forall.
    apply Forall_forall. intros row [_ Hin]%list_elem_of_filter.
    unfold well_formed in Hwf. rewrite Forall_forall in Hwf.
    destruct Hdoc as (_ & Hc & _). specialize (Hwf row Hin). rewrite Hc in Hwf.
    by apply seven_wide. }
  split; [reflexivity|]. split; [apply deleted_has_none|].
  intros row Hin Hno. apply list_elem_of_filter. by split.
Qed.


End Handlers.

Lemma create_then_delete_restores_at_bea :
  working (opened one_customer 19723) !! "customers" = Some (customers_table [ann])
  /\ documented_customers (customers_table [ann])
  /\ filter (has_id "C2") [ann] = []
  /\ working (crud_delete grammar_only "C2" true
               (crud_create grammar_only "C2" "Bea" "F" 41 "Delhi" "Current" true
                  (opened one_customer 19723)).2).2
     = one_customer.
Proof.
  split; [reflexivity|]. split; [repeat split|]. split; [reflexivity|].
  apply (create_then_delete_restores grammar_only "C2" "Bea" "F" 41 "Delhi" "Current"
           (opened one_customer 19723) (customers_table [ann]));
    [reflexivity | repeat split | reflexivity].
Defined.

Lemma two_customers_well_formed : well_formed (customers_table [ann; bea]).
Proof. repeat constructor. Qed.

Lemma updated_city_is_read_back_at_ann :
  working (opened two_customers 19723) !! "customers" = Some (customers_table [ann; bea])
  /\ documented_customers (customers_table [ann; bea])
  /\ well_formed (customers_table [ann; bea])
  /\ exists df,
       run_query grammar_only "SELECT * FROM customers" None
         (crud_update grammar_only "C1" "Goa" true (opened two_customers 19723)).2
       = (Returned df, (crud_update grammar_only "C1" "Goa" true (opened two_customers 19723)).2)
       /\ columns df = customers_columns
       /\ rows df = map (fun row => if decide (has_id "C1" row) then with_city "Goa" row
                                    else row) [ann; bea].
Proof.
  split; [reflexivity|]. split; [repeat split|]. split; [exact two_customers_well_formed|].
  apply (updated_city_is_read_back grammar_only "C1" "Goa" (opened two_customers 19723)
           (customers_table [ann; bea]));
    [reflexivity | repeat split | exact two_customers_well_formed].
Defined.

Lemma last_update_wins_at_ann :
  working (opened two_customers 19723) !! "customers" = Some (customers_table [ann; bea])
  /\ documented_customers (customers_table [ann; bea])
  /\ working (crud_update grammar_only "C1" "Goa" true
               (crud_update grammar_only "C1" "Agra" true (opened two_customers 19723)).2).2
     = working (crud_update grammar_only "C1" "Goa" true (opened two_customers 19723)).2.
Proof.
  split; [reflexivity|]. split; [repeat split|].
  apply (last_update_wins grammar_only "C1" "Agra" "Goa" (opened two_customers 19723)
           (customers_table [ann; bea])); [reflexivity | repeat split].
Defined.

Lemma mutations_touch_only_customers_at_accounts :
  working (opened (one_account ∪ one_customer) 19723) !! "customers"
    = Some (customers_table [ann])
  /\ documented_customers (customers_table [ann])
  /\ "accounts" <> "customers"
  /\ working (crud_delete grammar_only "C1" true
               (opened (one_account ∪ one_customer) 19723)).2 !! "accounts"
     = working (opened (one_account ∪ one_customer) 19723) !! "accounts".
Proof.
  split; [reflexivity|]. split; [repeat split|]. split; [discriminate|].
  apply (mutations_touch_only_customers grammar_only "C1" "" "" 1 "" ""
           (opened (one_account ∪ one_customer) 19723) (customers_table [ann]) "accounts");
    [reflexivity | repeat split | discriminate].
Defined.

Lemma two_customers_distinct : NoDup (customer_id <$> [ann; bea]).
Proof. refine (bool_decide_unpack _ _). vm_compute. exact I. Qed.

Lemma handlers_keep_the_key_unique_at_two :
  working (opened two_customers 19723) !! "customers" = Some (customers_table [ann; bea])
  /\ documented_customers (customers_table [ann; bea])
  /\ NoDup (customer_id <$> [ann; bea])
  /\ NoDup (customer_id <$> customers_rows
              (working (crud_create grammar_only "C3" "Cy" "M" 25 "Pune" "Savings" true
                          (opened two_customers 19723)).2)).
Proof.
  split; [reflexivity|]. split; [repeat split|]. split; [exact two_customers_distinct|].
  apply (handlers_keep_the_key_unique grammar_only "C3" "Cy" "M" 25 "Pune" "Savings"
           (opened two_customers 19723) (customers_table [ann; bea]));
    [reflexivity | repeat split | exact two_customers_distinct].
Defined.

Lemma deleted_customer_is_gone_at_ann :
  working (opened two_customers 19723) !! "customers" = Some (customers_table [ann; bea])
  /\ documented_customers (customers_table [ann; bea])
  /\ well_formed (customers_table [ann; bea])
  /\ exists df,
       run_query grammar_only "SELECT * FROM customers" None
         (crud_delete grammar_only "C1" true (opened two_customers 19723)).2
       = (Returned df, (crud_delete grammar_only "C1" true (opened two_customers 19723)).2)
       /\ rows df = filter (fun row => ~ has_id "C1" row) [ann; bea]
       /\ filter (has_id "C1") (rows df) = []
       /\ (forall row, row ∈ [ann; bea] -> ~ has_id "C1" row -> row ∈ rows df).
Proof.
  split; [reflexivity|]. split; [repeat split|]. split; [exact two_customers_well_formed|].
  apply (deleted_customer_is_gone grammar_only "C1" (opened two_customers 19723)
           (customers_table [ann; bea]));
    [reflexivity | repeat split | exact two_customers_well_formed].
Defined.

(** ** View Tables *)

Lemma all_names (g : nat -> nat) (cols : list string) :
  (imap (fun i c => (c, Sqlite.SIdx (g i))) cols).*1 = cols.
Proof.
  revert g. induction cols as [|c cols IH]; intros g; [reflexivity|].
  cbn [imap fmap list_fmap fst]. f_equal. exact (IH (g ∘ S)).
Qed.

Lemma all_values (en : Sqlite.env) (row : list value) (g : nat -> nat) (cols : list string) :
  map (fun it : string * Sqlite.scalar => Sqlite.eval_scalar en row it.2)
      (imap (fun i c => (c, Sqlite.SIdx (g i))) cols)
  = map (fun i => nth (g i) row VNull) (seq 0 (length cols)).
Proof.
  revert g. induction cols as [|c cols IH]; intros g; [reflexivity|].
  cbn [imap map length seq snd Sqlite.eval_scalar]. f_equal.
  rewrite <- seq_shift, map_map. exact (IH (g ∘ S)).
Qed.

Lemma across_own_width (row : list value) : across (length row) row = row.
Proof.
  unfold across. induction row as [|v row IH]; [reflexivity|].
  cbn [length seq map nth]. f_equal.
  rewrite <- seq_shift, map_map. exact IH.
Qed.

Lemma exec_select_all (db : Sqlite.database) (en : Sqlite.env) (name : string) (t : Sqlite.table) :
  Sqlite.find_table db name = Some t ->
  Sqlite.e_params en = [] ->
  Sqlite.exec db en 0 (Sqlite.Select (select_all name))
  = Sqlite.Ok (Sqlite.rows_cursor (Sqlite.tcolumns t)
                 (map (across (length (Sqlite.tcolumns t))) (Sqlite.trows t)), db).
Proof.
  intros Hfind Hparams.
  unfold Sqlite.exec. cbn [Sqlite.sel_from select_all]. rewrite Hfind.
  evaluate (Sqlite.aggregate_query (select_all name)).
  unfold Sqlite.select_rows, Sqlite.resolve_plain, Sqlite.check_bindings.
  cbn [Sqlite.sel_items Sqlite.sel_where Sqlite.sel_order Sqlite.sel_limit select_all
       Sqlite.resolve_where Sqlite.resolve_order Sqlite.both].
  rewrite Hparams. cbn [length]. rewrite bool_decide_eq_true_2 by reflexivity.
  unfold mbind, Sqlite.res_bind.
  unfold Sqlite.plain_rows, Sqlite.limit_rows, Sqlite.order_rows.
  rewrite filter_keeps_all, (all_names id).
  do 3 f_equal. apply map_ext. intros row. exact (all_values en row id _).
Qed.

Lemma prepare_select_all (name : string) :
  name ∈ tables ->
  Sqlite.prepare ("SELECT * FROM " +:+ name) = Some (Sqlite.Select (select_all name), 0%nat)
  /\ Text.lower name = name.
Proof.
  intros Hin. unfold tables in Hin.
  repeat (apply elem_of_cons in Hin as [->|Hin]);
    [split; vm_compute; reflexivity .. | by apply elem_of_nil in Hin].
Qed.


Section ViewTables.
Variable beyond :
  string -> list value -> Z -> Sqlite.database -> outcome Sqlite.cursor * Sqlite.database.

(** X8.  "View Tables" on one of its seven names, when the database has
    the table: the frame rendered has the declared columns and every row of
    the table, in order; nothing else is rendered and nothing changes. *)
Theorem view_table_shows_the_table (choice : string) (w : world) (t : Sqlite.table) :
  choice ∈ tables ->
  working w !! choice = Some t ->
  well_formed t ->
  view_table beyond choice w
  = (Returned tt,
     showing [StDataframe {| columns := Sqlite.tcolumns t; rows := Sqlite.trows t |}] w).
Proof.
  intros Hin Hdb Hwf. destruct (prepare_select_all choice Hin) as [Hprep Hlow].
  unfold view_table, mbind, M_bind. rewrite run_query_cases. cbn [default].
  unfold sqlite_step, Sqlite.run. rewrite Hprep.
  rewrite (exec_select_all _ _ _ t); [|unfold Sqlite.find_table; by rewrite Hlow|reflexivity].
  cbv zeta. cbn [Sqlite.description Sqlite.rows_cursor Sqlite.fetchall].
  assert (map (across (length (Sqlite.tcolumns t))) (Sqlite.trows t) = Sqlite.trows t) as ->.
  { rewrite <- (map_id (Sqlite.trows t)) at 2. apply map_ext_Forall.
    eapply Forall_impl; [exact Hwf|]. intros row <-. apply across_own_width. }
  unfold st_dataframe, render, showing. destruct w; reflexivity.
Qed.

(** X9.  "View Tables" on one of its seven names, when the database lacks
    the table: it returns all the same, renders SQLite's "no such table"
    inside the message of [run_query], and shows the frame without columns. *)
Theorem view_table_of_a_missing_table (choice : string) (w : world) :
  choice ∈ tables ->
  working w !! choice = None ->
  view_table beyond choice w
  = (Returned tt,
     showing [StError ("SQL Error: Execution failed on sql 'SELECT * FROM " +:+ choice
                       +:+ "': no such table: " +:+ choice);
              StDataframe empty_DataFrame]
       {| committed := committed w; working := committed w; today := today w;
          screen := screen w |}).
Proof.
  intros Hin Hdb. destruct (prepare_select_all choice Hin) as [Hprep Hlow].
  unfold view_table, mbind, M_bind. rewrite run_query_cases. cbn [default].
  unfold sqlite_step, Sqlite.run. rewrite Hprep.
  unfold Sqlite.exec, Sqlite.find_table. cbn [Sqlite.sel_from select_all].
  rewrite Hlow, Hdb.
  unfold st_dataframe, render, showing. cbn [screen committed working today].
  rewrite <- app_assoc. cbn [app].
  do 4 f_equal.
  all: unfold tables in Hin.
  all: repeat (apply elem_of_cons in Hin as [->|Hin]);
    [vm_compute; reflexivity .. | by apply elem_of_nil in Hin].
Qed.
End ViewTables.

Lemma view_table_shows_the_table_at_customers :
  "customers" ∈ tables
  /\ working (opened two_customers 19723) !! "customers" = Some (customers_table [ann; bea])
  /\ well_formed (customers_table [ann; bea])
  /\ view_table grammar_only "customers" (opened two_customers 19723)
     = (Returned tt,
        showing [StDataframe {| columns := customers_columns; rows := [ann; bea] |}]
          (opened two_customers 19723)).
Proof.
  assert ("customers" ∈ tables) as Hin by (refine (bool_decide_unpack _ _); vm_compute; exact I).
  split; [exact Hin|]. split; [reflexivity|]. split; [exact two_customers_well_formed|].
  apply (view_table_shows_the_table grammar_only "customers" (opened two_customers 19723)
           (customers_table [ann; bea]) Hin); [reflexivity | exact two_customers_well_formed].
Defined.

Lemma view_table_of_a_missing_table_at_loans :
  "loans" ∈ tables
  /\ working (opened two_customers 19723) !! "loans" = None
  /\ view_table grammar_only "loans" (opened two_customers 19723)
     = (Returned tt,
        showing [StError ("SQL Error: Execution failed on sql 'SELECT * FROM " +:+ "loans"
                          +:+ "': no such table: " +:+ "loans");
                 StDataframe empty_DataFrame]
          (opened two_customers 19723)).
Proof.
  assert ("loans" ∈ tables) as Hin by (refine (bool_decide_unpack _ _); vm_compute; exact I).
  split; [exact Hin|]. split; [reflexivity|].
  apply (view_table_of_a_missing_table grammar_only "loans" (opened two_customers 19723) Hin).
  reflexivity.
Defined.

(** ** Charts *)

(** *** Sorting and grouping *)

Lemma runs_nonempty (idx : list nat) (l : list (list value)) :
  Forall (fun g => g <> []) (Sqlite.runs idx l).
Proof.
  induction l as [|r l IH]; [constructor|].
  cbn [Sqlite.runs]. destruct (Sqlite.runs idx l) as [|[|r' g] gs].
  - by repeat constructor.
  - by repeat constructor.
  - destruct (Sqlite.compare_keys _ _); inversion IH; subst; by repeat constructor.
Qed.

Lemma concat_runs (idx : list nat) (l : list (list value)) :
  concat (Sqlite.runs idx l) = l.
Proof.
  induction l as [|r l IH]; [reflexivity|].
  pose proof (runs_nonempty idx l) as Hne.
  cbn [Sqlite.runs]. destruct (Sqlite.runs idx l) as [|[|r' g] gs].
  - cbn in IH. subst l. reflexivity.
  - inversion Hne; subst. done.
  - destruct (Sqlite.compare_keys _ _); cbn in *; by rewrite IH.
Qed.

Lemma insert_sorted_perm {A} (le : A -> A -> bool) (x : A) (l : list A) :
  Sqlite.insert_sorted le x l ≡ₚ x :: l.
Proof.
  induction l as [|y l IH]; [reflexivity|].
  cbn [Sqlite.insert_sorted]. destruct (le x y); [reflexivity|].
  rewrite IH. apply Permutation_swap.
Qed.

Lemma sort_by_perm {A} (le : A -> A -> bool) (l : list A) : Sqlite.sort_by le l ≡ₚ l.
Proof.
  unfold Sqlite.sort_by. induction l as [|x l IH]; [reflexivity|].
  cbn [foldr]. rewrite insert_sorted_perm. by rewrite IH.
Qed.

Lemma compare_values_eq (a b : value) : Sqlite.compare_values a b = Eq <-> a = b.
Proof.
  destruct a as [|x|s], b as [|y|u]; cbn; try (split; [discriminate|congruence]); try done.
  - rewrite Z.compare_eq_iff. split; congruence.
  - split; [intros H; f_equal; by apply String.compare_eq_iff|].
    intros [= ->]. apply compare_same.
Qed.

Lemma compare_keys_eq (a b : list value) : Sqlite.compare_keys a b = Eq <-> a = b.
Proof.
  revert b. induction a as [|x a IH]; intros [|y b]; cbn; try done.
  destruct (Sqlite.compare_values x y) eqn:E.
  - apply compare_values_eq in E. subst y. rewrite IH. split; congruence.
  - split; [discriminate|]. intros [= -> _]. rewrite (proj2 (compare_values_eq y y) eq_refl) in E.
    discriminate.
  - split; [discriminate|]. intros [= -> _]. rewrite (proj2 (compare_values_eq y y) eq_refl) in E.
    discriminate.
Qed.

Lemma compare_values_antisym (a b : value) :
  Sqlite.compare_values b a = CompOpp (Sqlite.compare_values a b).
Proof.
  destruct a as [|x|s], b as [|y|u]; cbn; try reflexivity.
  - apply Z.compare_antisym.
  - apply String.compare_antisym.
Qed.

Lemma compare_values_trans (a b c : value) :
  Sqlite.compare_values a b = Lt -> Sqlite.compare_values b c = Lt ->
  Sqlite.compare_values a c = Lt.
Proof.
  destruct a as [|x|s], b as [|y|u], c as [|z|v]; cbn; try done.
  - rewrite !Z.compare_lt_iff. lia.
  - change String.compare with OrderedTypeEx.String_as_OT.cmp.
    rewrite !OrderedTypeEx.String_as_OT.cmp_lt. apply OrderedTypeEx.String_as_OT.lt_trans.
Qed.

Lemma compare_keys_antisym (a b : list value) :
  Sqlite.compare_keys b a = CompOpp (Sqlite.compare_keys a b).
Proof.
  revert b. induction a as [|x a IH]; intros [|y b]; cbn; try reflexivity.
  rewrite (compare_values_antisym x y).
  destruct (Sqlite.compare_values x y); cbn; [apply IH|reflexivity|reflexivity].
Qed.

Lemma compare_keys_trans (a b c : list value) :
  Sqlite.compare_keys a b = Lt -> Sqlite.compare_keys b c = Lt ->
  Sqlite.compare_keys a c = Lt.
Proof.
  revert b c. induction a as [|x a IH]; intros [|y b] [|z c]; cbn; try done.
  destruct (Sqlite.compare_values x y) eqn:Exy; try done;
    destruct (Sqlite.compare_values y z) eqn:Eyz; try done.
  - apply compare_values_eq in Exy, Eyz. subst.
    rewrite (proj2 (compare_values_eq z z) eq_refl). apply IH.
  - apply compare_values_eq in Exy. subst. by rewrite Eyz.
  - apply compare_values_eq in Eyz. subst. by rewrite Exy.
  - by rewrite (compare_values_trans x y z Exy Eyz).
Qed.

Lemma before_total (idx : list nat) (a b : list value) :
  Sqlite.not_after (Sqlite.compare_keys (Sqlite.key idx a) (Sqlite.key idx b)) = false ->
  before idx b a.
Proof.
  unfold before. rewrite (compare_keys_antisym (Sqlite.key idx a)).
  by destruct (Sqlite.compare_keys _ _).
Qed.

Lemma before_trans (idx : list nat) (a b c : list value) :
  before idx a b -> before idx b c -> before idx a c.
Proof.
  unfold before.
  destruct (Sqlite.compare_keys (Sqlite.key idx a) (Sqlite.key idx b)) eqn:Eab; [| |done];
    destruct (Sqlite.compare_keys (Sqlite.key idx b) (Sqlite.key idx c)) eqn:Ebc; try done;
    intros _ _.
  - apply compare_keys_eq in Eab, Ebc.
    by rewrite Eab, Ebc, (proj2 (compare_keys_eq _ _) eq_refl).
  - apply compare_keys_eq in Eab. by rewrite Eab, Ebc.
  - apply compare_keys_eq in Ebc. by rewrite <- Ebc, Eab.
  - by rewrite (compare_keys_trans _ _ _ Eab Ebc).
Qed.

Lemma before_both (idx : list nat) (a b : list value) :
  before idx a b -> before idx b a -> Sqlite.key idx a = Sqlite.key idx b.
Proof.
  unfold before. rewrite (compare_keys_antisym (Sqlite.key idx a)).
  destruct (Sqlite.compare_keys _ _) eqn:E; try done.
  intros _ _. by apply compare_keys_eq.
Qed.

Lemma insert_sorted_sorted (idx : list nat) (x : list value) (l : list (list value)) :
  StronglySorted (before idx) l ->
  StronglySorted (before idx)
    (Sqlite.insert_sorted
       (fun a b => Sqlite.not_after (Sqlite.compare_keys (Sqlite.key idx a) (Sqlite.key idx b)))
       x l).
Proof.
  induction 1 as [|y l Hl IH Hy]; [by repeat constructor|].
  cbn [Sqlite.insert_sorted].
  destruct (Sqlite.not_after _) eqn:E.
  - constructor; [by constructor|]. constructor; [exact E|].
    eapply Forall_impl; [exact Hy|]. intros z Hz. by apply (before_trans idx x y z).
  - constructor; [exact IH|].
    rewrite insert_sorted_perm. constructor; [by apply before_total|exact Hy].
Qed.

Lemma sort_by_sorted (idx : list nat) (l : list (list value)) :
  StronglySorted (before idx)
    (Sqlite.sort_by
       (fun a b => Sqlite.not_after (Sqlite.compare_keys (Sqlite.key idx a) (Sqlite.key idx b)))
       l).
Proof.
  unfold Sqlite.sort_by. induction l as [|x l IH]; [constructor|].
  cbn [foldr]. by apply insert_sorted_sorted.
Qed.

Lemma runs_cons (idx : list nat) (r : list value) (l : list (list value)) :
  (exists g gs, Sqlite.runs idx l = g :: gs /\ Sqlite.key idx r = group_key idx g
                /\ Sqlite.runs idx (r :: l) = (r :: g) :: gs)
  \/ (Sqlite.runs idx (r :: l) = [r] :: Sqlite.runs idx l
      /\ (l = [] \/ exists r' l', l = r' :: l' /\ Sqlite.key idx r <> Sqlite.key idx r')).
Proof.
  pose proof (runs_nonempty idx l) as Hne. pose proof (concat_runs idx l) as Hcat.
  cbn [Sqlite.runs]. destruct (Sqlite.runs idx l) as [|[|r' g] gs].
  - right. split; [reflexivity|]. left. by rewrite <- Hcat.
  - inversion Hne; subst. done.
  - destruct (Sqlite.compare_keys _ _) eqn:E.
    + left. exists (r' :: g), gs. apply compare_keys_eq in E. done.
    + right. split; [reflexivity|]. right. cbn in Hcat. exists r', (g ++ concat gs)%list.
      split; [done|]. intros H. apply compare_keys_eq in H. congruence.
    + right. split; [reflexivity|]. right. cbn in Hcat. exists r', (g ++ concat gs)%list.
      split; [done|]. intros H. apply compare_keys_eq in H. congruence.
Qed.

(** The rows of a group have the key of the group. *)
Lemma runs_same_key (idx : list nat) (l : list (list value)) :
  Forall (fun g => Forall (fun r => Sqlite.key idx r = group_key idx g) g) (Sqlite.runs idx l).
Proof.
  induction l as [|r l IH]; [constructor|].
  destruct (runs_cons idx r l) as [(g & gs & Hl & Hk & ->)|[-> _]].
  - rewrite Hl in IH. inversion IH as [|? ? Hg Hgs]; subst.
    constructor; [|exact Hgs]. constructor; [reflexivity|].
    eapply Forall_impl; [exact Hg|]. intros x Hx. cbn. unfold group_key in *. cbn. congruence.
  - constructor; [|exact IH]. by repeat constructor.
Qed.

(** In sorted rows, no two groups have the same key. *)
Lemma runs_distinct (idx : list nat) (l : list (list value)) :
  StronglySorted (before idx) l ->
  NoDup (group_key idx <$> Sqlite.runs idx l).
Proof.
  induction 1 as [|r l Hl IH Hr]; [constructor|].
  destruct (runs_cons idx r l) as [(g & gs & Hruns & Hk & ->)|[-> Hcut]].
  - rewrite Hruns in IH. cbn [fmap list_fmap] in *.
    change (group_key idx (r :: g)) with (Sqlite.key idx r). by rewrite Hk.
  - cbn [fmap list_fmap]. constructor; [|exact IH].
    change (group_key idx [r]) with (Sqlite.key idx r).
    intros Hin. apply list_elem_of_fmap in Hin as (g & Hkey & Hg).
    destruct Hcut as [->|(r' & l' & -> & Hne)]; [inversion Hg|].
    pose proof (runs_nonempty idx (r' :: l')) as Hnonempty.
    rewrite Forall_forall in Hnonempty. specialize (Hnonempty g Hg).
    destruct g as [|x g]; [done|]. unfold group_key in Hkey. cbn [hd] in Hkey.
    assert (x ∈ r' :: l') as Hx.
    { rewrite <- (concat_runs idx (r' :: l')). apply list_elem_of_In, in_concat.
      exists (x :: g). split; [by apply list_elem_of_In|by left]. }
    apply Hne. apply before_both.
    + rewrite Forall_forall in Hr. apply Hr. by left.
    + unfold before. rewrite Hkey. apply elem_of_cons in Hx as [->|Hx].
      * by rewrite (proj2 (compare_keys_eq _ _) eq_refl).
      * inversion Hl as [|? ? _ Hall]; subst. rewrite Forall_forall in Hall. by apply Hall.
Qed.

(** A group of sorted rows holds all the rows with its key. *)
Lemma group_is_filter (idx : list nat) (gs : list (list (list value))) (g : list (list value)) :
  Forall (fun g => Forall (fun r => Sqlite.key idx r = group_key idx g) g) gs ->
  NoDup (group_key idx <$> gs) ->
  g ∈ gs ->
  filter (fun r => Sqlite.key idx r = group_key idx g) (concat gs) = g.
Proof.
  induction gs as [|h gs IH]; intros Hsame Hdist Hin; [inversion Hin|].
  inversion Hsame as [|? ? Hh Hgs]; subst.
  cbn [fmap list_fmap] in Hdist. apply NoDup_cons in Hdist as [Hfirst Hrest].
  cbn [concat]. rewrite filter_app.
  assert (forall a b : list (list value),
            Forall (fun r => Sqlite.key idx r = group_key idx a) a ->
            group_key idx a <> group_key idx b ->
            filter (fun r => Sqlite.key idx r = group_key idx b) a = []) as Hnone.
  { intros a b. generalize (group_key idx a). intros k Ha Hab.
    induction Ha as [|x a' Hx Ha IHa]; [reflexivity|].
    rewrite filter_cons_False by congruence. exact IHa. }
  assert (forall a : list (list value),
            Forall (fun r => Sqlite.key idx r = group_key idx a) a ->
            filter (fun r => Sqlite.key idx r = group_key idx a) a = a) as Hall.
  { intros a. generalize (group_key idx a). intros k Ha.
    induction Ha as [|x a' Hx Ha IHa]; [reflexivity|].
    rewrite filter_cons_True by done. by rewrite IHa. }
  destruct (decide (g = h)) as [->|Hgh].
  - rewrite (Hall h Hh).
    assert (filter (fun r => Sqlite.key idx r = group_key idx h) (concat gs) = []) as ->;
      [|apply app_nil_r].
    clear IH Hall Hin Hsame. induction Hgs as [|a gs Ha Hgs IHgs]; [reflexivity|].
    cbn [concat]. rewrite filter_app.
    cbn [fmap list_fmap] in Hfirst, Hrest. apply NoDup_cons in Hrest as [_ Hrest].
    rewrite (Hnone a h Ha).
    2:{ intros Heq. apply Hfirst. rewrite Heq. by left. }
    rewrite IHgs; [reflexivity | intros Hx; apply Hfirst; by right | done].
  - apply elem_of_cons in Hin as [->|Hin]; [done|].
    rewrite (Hnone h g Hh), (IH Hgs Hrest Hin); [reflexivity|].
    intros Heq. apply Hfirst. rewrite Heq. by apply list_elem_of_fmap_2.
Qed.

Lemma group_members (i : nat) (rows g : list (list value)) :
  g ∈ Sqlite.groups [i] rows ->
  g <> [] /\ g ≡ₚ filter (fun r => nth i r VNull = group_value i g) rows.
Proof.
  intros Hg. unfold Sqlite.groups in Hg.
  set (l := Sqlite.sort_by _ rows) in Hg.
  split.
  - pose proof (runs_nonempty [i] l) as Hne. rewrite Forall_forall in Hne. by apply Hne.
  - rewrite <- (group_is_filter [i] (Sqlite.runs [i] l) g
                  (runs_same_key _ _) (runs_distinct _ _ (sort_by_sorted _ _)) Hg) at 1.
    rewrite concat_runs.
    rewrite <- (sort_by_perm _ rows : l ≡ₚ rows).
    assert (filter (fun r => Sqlite.key [i] r = group_key [i] g) l
            = filter (fun r => nth i r VNull = group_value i g) l) as ->; [|reflexivity].
    apply list_filter_iff. intros r. unfold group_key, group_value, Sqlite.key. cbn [map].
    split; congruence.
Qed.

Lemma groups_cover (i : nat) (rows : list (list value)) (r : list value) :
  r ∈ rows ->
  exists g, g ∈ Sqlite.groups [i] rows /\ r ∈ g /\ group_value i g = nth i r VNull.
Proof.
  intros Hr. unfold Sqlite.groups. set (l := Sqlite.sort_by _ _).
  assert (r ∈ concat (Sqlite.runs [i] l)) as Hin
    by (rewrite concat_runs; unfold l; by rewrite sort_by_perm).
  apply list_elem_of_In, in_concat in Hin as (g & Hg & Hin).
  apply list_elem_of_In in Hg, Hin.
  exists g. split; [exact Hg|]. split; [exact Hin|].
  pose proof (runs_same_key [i] l) as Hsame.
  rewrite Forall_forall in Hsame. specialize (Hsame g Hg).
  rewrite Forall_forall in Hsame. specialize (Hsame r Hin).
  unfold group_key, Sqlite.key in Hsame. cbn [map] in Hsame.
  unfold group_value. congruence.
Qed.

Lemma groups_distinct (i : nat) (rows : list (list value)) :
  NoDup (group_value i <$> Sqlite.groups [i] rows).
Proof.
  apply (NoDup_fmap_1 (fun v => [v])). rewrite <- list_fmap_compose.
  exact (runs_distinct [i] _ (sort_by_sorted _ _)).
Qed.

Lemma collect_each {A B} (f : A -> Sqlite.res B) (g : A -> B) (l : list A) :
  Forall (fun x => f x = Sqlite.Ok (g x)) l ->
  Sqlite.collect (map f l) = Sqlite.Ok (map g l).
Proof.
  induction 1 as [|x l Hx Hl IH]; [reflexivity|].
  cbn [map Sqlite.collect]. rewrite Hx, IH. reflexivity.
Qed.

Lemma all_passed {A} (f : A -> list value) (l : list A) :
  (filter (fun r : list value * option bool => r.2 = Some true)
     (map (fun x => (f x, Some true)) l)).*1 = map f l.
Proof.
  induction l as [|x l IH]; [reflexivity|].
  cbn [map]. rewrite filter_cons_True by reflexivity. cbn [fmap list_fmap fst].
  f_equal. exact IH.
Qed.

Lemma volume_perm (a b : list (list value)) : a ≡ₚ b -> volume a = volume b.
Proof.
  induction 1 as [|x a b _ IH|x y a|a b c _ IH1 _ IH2]; cbn [volume foldr] in *;
    [reflexivity | fold (volume a) (volume b); by rewrite IH | lia | congruence].
Qed.

Lemma whole_amounts_perm (a b : list (list value)) :
  a ≡ₚ b -> whole_amounts a -> whole_amounts b.
Proof. intros H. unfold whole_amounts. by rewrite H. Qed.

Lemma volume_filter (P : list value -> Prop) `{!forall r, Decision (P r)}
    (rows : list (list value)) :
  whole_amounts rows -> 0 <= volume (filter P rows) <= volume rows.
Proof.
  induction 1 as [|r rows (z & Hz & Hpos) _ IH]; [done|].
  assert (amount r = z) as Ha by (unfold amount; by rewrite Hz).
  destruct (decide (P r)).
  - rewrite filter_cons_True by done. cbn [volume foldr]. fold (volume (filter P rows)).
    fold (volume rows). lia.
  - rewrite filter_cons_False by done. cbn [volume foldr]. fold (volume rows). lia.
Qed.

Lemma volume_nonneg (rows : list (list value)) : whole_amounts rows -> 0 <= volume rows.
Proof.
  intros Hw. pose proof (volume_filter (fun _ => False) rows Hw). lia.
Qed.

Lemma sum_ints_total (rows : list (list value)) (a : Z) :
  whole_amounts rows ->
  0 <= a -> a + volume rows <= Sqlite.int64_max ->
  Sqlite.sum_ints (Sqlite.column 3 rows) (Some a) = Sqlite.Ok (VInt (a + volume rows)).
Proof.
  intros Hw. revert a. induction Hw as [|r rows (z & Hz & Hpos) Hw IH]; intros a Ha Hmax.
  - cbn. by rewrite Z.add_0_r.
  - assert (amount r = z) as Hr by (unfold amount; by rewrite Hz).
    pose proof (volume_nonneg rows Hw) as Hv.
    cbn [volume foldr] in Hmax. fold (volume rows) in Hmax. rewrite Hr in Hmax.
    unfold Sqlite.column. cbn [map Sqlite.sum_ints]. rewrite Hz. cbn [default from_option]. unfold id.
    assert ((Sqlite.int64_min <=? a + z) && (a + z <=? Sqlite.int64_max) = true) as ->.
    { apply andb_true_iff. unfold Sqlite.int64_min. split; apply Z.leb_le; lia. }
    fold (Sqlite.column 3 rows). rewrite IH by lia.
    cbn [volume foldr]. fold (volume rows). rewrite Hr. do 2 f_equal. lia.
Qed.

Lemma sum_values_total (rows : list (list value)) :
  whole_amounts rows -> rows <> [] -> volume rows <= Sqlite.int64_max ->
  Sqlite.sum_values (Sqlite.column 3 rows) = Sqlite.Ok (VInt (volume rows)).
Proof.
  intros Hw Hne Hmax. unfold Sqlite.sum_values.
  assert (existsb Sqlite.is_text (Sqlite.column 3 rows) = false) as ->.
  { clear Hne Hmax. induction Hw as [|r rows (z & Hz & _) _ IH]; [reflexivity|].
    unfold Sqlite.column. cbn [map existsb]. rewrite Hz. exact IH. }
  destruct rows as [|r rows]; [done|].
  inversion Hw as [|? ? (z & Hz & Hpos) Hrest]; subst.
  assert (amount r = z) as Hr by (unfold amount; by rewrite Hz).
  pose proof (volume_nonneg rows Hrest) as Hv.
  cbn [volume foldr] in Hmax |- *. fold (volume rows) in Hmax |- *. rewrite Hr in Hmax |- *.
  unfold Sqlite.column. cbn [map Sqlite.sum_ints]. rewrite Hz. cbn [default from_option]. unfold id.
  change (0 + z) with z.
  assert ((Sqlite.int64_min <=? z) && (z <=? Sqlite.int64_max) = true) as ->.
  { apply andb_true_iff. unfold Sqlite.int64_min. split; apply Z.leb_le; lia. }
  fold (Sqlite.column 3 rows). apply sum_ints_total; [exact Hrest|lia|lia].
Qed.

Section Charts.
Variable beyond :
  string -> list value -> Z -> Sqlite.database -> outcome Sqlite.cursor * Sqlite.database.

Lemma customers_by_city_step (db : Sqlite.database) (t : Sqlite.table) (now : Z) :
  db !! "customers" = Some t ->
  documented_customers t ->
  sqlite_step beyond customers_by_city [] now db
  = (Returned (Sqlite.rows_cursor ["city"; "total"]
       (map (fun g => [group_value 4 g; VInt (Z.of_nat (length g))])
            (Sqlite.groups [4%nat] (Sqlite.trows t)))), db).
Proof.
  intros Hdb (Hn & Hc & Hu).
  unfold sqlite_step, Sqlite.run.
  evaluate (Sqlite.prepare customers_by_city).
  unfold Sqlite.exec, Sqlite.sel_from, Sqlite.find_table.
  evaluate (Text.lower "customers").
  rewrite Hdb.
  match goal with |- context [Sqlite.aggregate_query ?q] =>
    evaluate (Sqlite.aggregate_query q) end.
  unfold Sqlite.select_groups. rewrite Hc.
  match goal with |- context [Sqlite.resolve_grouped ?c ?q] =>
    evaluate (Sqlite.resolve_grouped c q) end.
  next_bind. unfold Sqlite.check_bindings. cbn [Sqlite.e_params length].
  rewrite bool_decide_eq_true_2 by reflexivity. next_bind.
  unfold Sqlite.grouped. cbn [Sqlite.sel_group Sqlite.sel_limit].
  rewrite filter_keeps_all.
  rewrite (collect_each _ (fun g => ([group_value 4 g; VInt (Z.of_nat (length g))], Some true)))
    by (apply Forall_forall; intros g _; reflexivity).
  unfold mbind, Sqlite.res_bind. cbn [Sqlite.limit_rows Sqlite.order_rows].
  rewrite (all_passed (fun g => [group_value 4 g; VInt (Z.of_nat (length g))])).
  reflexivity.
Qed.

Lemma volume_by_type_chart_step (db : Sqlite.database) (t : Sqlite.table) (now : Z) :
  db !! "transactions" = Some t ->
  documented_transactions t ->
  whole_amounts (Sqlite.trows t) ->
  volume (Sqlite.trows t) <= Sqlite.int64_max ->
  sqlite_step beyond volume_by_type_chart [] now db
  = (Returned (Sqlite.rows_cursor ["txn_type"; "total"]
       (map (fun g => [group_value 2 g; VInt (volume g)])
            (Sqlite.groups [2%nat] (Sqlite.trows t)))), db).
Proof.
  intros Hdb (Hn & Hc) Hw Hmax.
  unfold sqlite_step, Sqlite.run.
  evaluate (Sqlite.prepare volume_by_type_chart).
  unfold Sqlite.exec, Sqlite.sel_from, Sqlite.find_table.
  evaluate (Text.lower "transactions").
  rewrite Hdb.
  match goal with |- context [Sqlite.aggregate_query ?q] =>
    evaluate (Sqlite.aggregate_query q) end.
  unfold Sqlite.select_groups. rewrite Hc.
  match goal with |- context [Sqlite.resolve_grouped ?c ?q] =>
    evaluate (Sqlite.resolve_grouped c q) end.
  next_bind. unfold Sqlite.check_bindings. cbn [Sqlite.e_params length].
  rewrite bool_decide_eq_true_2 by reflexivity. next_bind.
  unfold Sqlite.grouped. cbn [Sqlite.sel_group Sqlite.sel_limit].
  rewrite filter_keeps_all.
  rewrite (collect_each _ (fun g => ([group_value 2 g; VInt (volume g)], Some true))).
  - unfold mbind, Sqlite.res_bind. cbn [Sqlite.limit_rows Sqlite.order_rows].
    rewrite (all_passed (fun g => [group_value 2 g; VInt (volume g)])).
    reflexivity.
  - apply Forall_forall. intros g Hg.
    destruct (group_members 2 _ g Hg) as [Hne Hperm].
    unfold Sqlite.group_row. cbn [map Sqlite.collect Sqlite.eval_agg snd].
    rewrite sum_values_total; [reflexivity | | exact Hne |].
    + apply (whole_amounts_perm _ _ (symmetry Hperm)).
      unfold whole_amounts in *. rewrite Forall_forall in Hw |- *.
      intros r [_ Hr]%list_elem_of_filter. by apply Hw.
    + rewrite (volume_perm _ _ Hperm). pose proof (volume_filter
        (fun r => nth 2 r VNull = group_value 2 g) _ Hw). lia.
Qed.

(** X10.  The chart "Customers by City" is drawn from one row per city
    that has a customer, holding the city and the number of customers of
    that city; no city has two rows. *)
Theorem customers_by_city_counts (w : world) (t : Sqlite.table) :
  working w !! "customers" = Some t ->
  documented_customers t ->
  exists df,
    run_query beyond customers_by_city None w = (Returned df, w)
    /\ columns df = ["city"; "total"]
    /\ NoDup (rows df)
    /\ (forall row,
          row ∈ rows df
          <-> exists c, row = [c; VInt (Z.of_nat (customers_in c (Sqlite.trows t)))]
                        /\ (0 < customers_in c (Sqlite.trows t))%nat).
Proof.
  intros Hdb Hdoc.
  exists {| columns := ["city"; "total"];
            rows := map (fun g => [group_value 4 g; VInt (Z.of_nat (length g))])
                        (Sqlite.groups [4%nat] (Sqlite.trows t)) |}.
  split.
  { rewrite run_query_cases. cbn [default].
    rewrite (customers_by_city_step _ t _ Hdb Hdoc). destruct w; reflexivity. }
  split; [reflexivity|]. cbn [rows]. split.
  - apply (NoDup_fmap_1 (fun row => nth 0 row VNull)).
    rewrite <- list_fmap_compose. apply groups_distinct.
  - intros row. rewrite list_elem_of_fmap. split.
    + intros (g & -> & Hg). destruct (group_members 4 _ g Hg) as [Hne Hperm].
      exists (group_value 4 g). unfold customers_in, city. rewrite <- Hperm.
      split; [reflexivity|]. destruct g; [done|cbn; lia].
    + intros (c & -> & Hpos).
      assert (exists r, r ∈ Sqlite.trows t /\ city r = c) as (r & Hr & Hc).
      { unfold customers_in in Hpos.
        destruct (filter _ (Sqlite.trows t)) as [|r rest] eqn:E; [cbn in Hpos; lia|].
        exists r. assert (r ∈ filter (fun row => city row = c) (Sqlite.trows t)) as Hin
          by (rewrite E; by left).
        apply list_elem_of_filter in Hin as [? ?]. by split. }
      destruct (groups_cover 4 _ r Hr) as (g & Hg & _ & Hv).
      exists g. split; [|exact Hg].
      destruct (group_members 4 _ g Hg) as [_ Hperm].
      unfold customers_in. rewrite <- Hc. unfold city. rewrite <- Hv, <- Hperm. reflexivity.
Qed.

(** X11.  The chart "Transaction Volume by Type" is drawn from one row
    per transaction type that occurs, holding the type and the sum of the
    amounts of that type, when the amounts are non-negative integers whose
    sum fits SQLite's 64-bit integers; no type has two rows. *)
Theorem volume_by_type_chart_sums (w : world) (t : Sqlite.table) :
  working w !! "transactions" = Some t ->
  documented_transactions t ->
  whole_amounts (Sqlite.trows t) ->
  volume (Sqlite.trows t) <= Sqlite.int64_max ->
  exists df,
    run_query beyond volume_by_type_chart None w = (Returned df, w)
    /\ columns df = ["txn_type"; "total"]
    /\ NoDup (rows df)
    /\ (forall row,
          row ∈ rows df
          <-> exists ty, row = [ty; VInt (volume (of_type ty (Sqlite.trows t)))]
                         /\ of_type ty (Sqlite.trows t) <> []).
Proof.
  intros Hdb Hdoc Hw Hmax.
  exists {| columns := ["txn_type"; "total"];
            rows := map (fun g => [group_value 2 g; VInt (volume g)])
                        (Sqlite.groups [2%nat] (Sqlite.trows t)) |}.
  split.
  { rewrite run_query_cases. cbn [default].
    rewrite (volume_by_type_chart_step _ t _ Hdb Hdoc Hw Hmax). destruct w; reflexivity. }
  split; [reflexivity|]. cbn [rows]. split.
  - apply (NoDup_fmap_1 (fun row => nth 0 row VNull)).
    rewrite <- list_fmap_compose. apply groups_distinct.
  - intros row. rewrite list_elem_of_fmap. split.
    + intros (g & -> & Hg). destruct (group_members 2 _ g Hg) as [Hne Hperm].
      exists (group_value 2 g). unfold of_type, txn_type.
      split; [by rewrite (volume_perm _ _ Hperm)|].
      intros Hnil. rewrite Hnil in Hperm. apply Permutation_nil_r in Hperm. done.
    + intros (ty & -> & Hsome).
      destruct (of_type ty (Sqlite.trows t)) as [|r rest] eqn:E; [done|].
      assert (r ∈ of_type ty (Sqlite.trows t)) as Hin by (rewrite E; by left).
      apply list_elem_of_filter in Hin as [Hty Hr].
      destruct (groups_cover 2 _ r Hr) as (g & Hg & _ & Hv).
      exists g. split; [|exact Hg].
      destruct (group_members 2 _ g Hg) as [_ Hperm].
      rewrite <- E. unfold of_type. rewrite <- Hty. unfold txn_type.
      rewrite <- Hv, (volume_perm _ _ Hperm). reflexivity.
Qed.
End Charts.

Lemma customers_by_city_counts_at_two :
  working (opened two_customers 19723) !! "customers" = Some (customers_table [ann; bea])
  /\ documented_customers (customers_table [ann; bea])
  /\ exists df,
       run_query grammar_only customers_by_city None (opened two_customers 19723)
       = (Returned df, opened two_customers 19723)
       /\ columns df = ["city"; "total"]
       /\ NoDup (rows df)
       /\ (forall row,
             row ∈ rows df
             <-> exists c, row = [c; VInt (Z.of_nat (customers_in c [ann; bea]))]
                           /\ (0 < customers_in c [ann; bea])%nat).
Proof.
  split; [reflexivity|]. split; [repeat split|].
  apply (customers_by_city_counts grammar_only (opened two_customers 19723)
           (customers_table [ann; bea])); [reflexivity | repeat split].
Defined.

Lemma example_whole_amounts : whole_amounts example_rows.
Proof. repeat (constructor; [eexists; split; [reflexivity|lia]|]). constructor. Qed.

Lemma example_volume_fits : volume example_rows <= Sqlite.int64_max.
Proof. by vm_compute. Qed.

Lemma volume_by_type_chart_sums_on_the_example :
  working (opened example_store 19723) !! "transactions" = Some (transactions_table example_rows)
  /\ documented_transactions (transactions_table example_rows)
  /\ whole_amounts example_rows
  /\ volume example_rows <= Sqlite.int64_max
  /\ exists df,
       run_query grammar_only volume_by_type_chart None (opened example_store 19723)
       = (Returned df, opened example_store 19723)
       /\ columns df = ["txn_type"; "total"]
       /\ NoDup (rows df)
       /\ (forall row,
             row ∈ rows df
             <-> exists ty, row = [ty; VInt (volume (of_type ty example_rows))]
                            /\ of_type ty example_rows <> []).
Proof.
  split; [reflexivity|]. split; [by split|]. split; [exact example_whole_amounts|].
  split; [exact example_volume_fits|].
  apply (volume_by_type_chart_sums grammar_only (opened example_store 19723)
           (transactions_table example_rows));
    [reflexivity | by split | exact example_whole_amounts | exact example_volume_fits].
Defined.
